(** * JUnit XML report generation of gotestsum (package [junitxml])

    A shallow embedding of [internal/junitxml/report.go]: the package name
    normalizer ([stripPathElements], [mungePackageName]), the suite builder
    ([generate], [packageTestCases], [newJUnitTestCase]), the toolchain
    version resolver ([goVersion]) and the writer ([write], [Write]),
    followed by the properties proved about them.

    Conventions.
    - A Go [string] is a sequence of bytes: Rocq's [string].
    - A Go [int] is a [Z]; no arithmetic is done on it here, so no
      wrap-around is involved.
    - A function that can panic at run time returns an [option]: [None] is
      the panic, [Some v] the returned value. *)

From Stdlib Require Import ZArith Ascii String DecimalString.
From Stdlib Require Import Floats.SpecFloat.
From stdpp Require Import base option list strings gmap.

Local Open Scope string_scope.
Local Open Scope Z_scope.
Local Open Scope list_scope.

(** ** The Go library functions used by the report generator *)

Module strings.

(** [strings.Split(s, sep)] for a one-byte separator: the pieces between
    the occurrences of [sep]; always at least one piece. *)
Fixpoint Split (s : string) (sep : ascii) : list string :=
  match s with
  | EmptyString => [EmptyString]
  | String c rest =>
      if Ascii.eqb c sep then EmptyString :: Split rest sep
      else match Split rest sep with
           | piece :: pieces => String c piece :: pieces
           | [] => [String c EmptyString]
           end
  end.

(** [strings.Join(elems, sep)]. *)
Fixpoint Join (elems : list string) (sep : string) : string :=
  match elems with
  | [] => EmptyString
  | [e] => e
  | e :: rest => e +:+ sep +:+ Join rest sep
  end.

(** [strings.Replace(s, old, new, -1)] for one-byte [old] and [new]:
    every occurrence is replaced. *)
Fixpoint Replace (s : string) (old new : ascii) : string :=
  match s with
  | EmptyString => EmptyString
  | String c rest =>
      String (if Ascii.eqb c old then new else c) (Replace rest old new)
  end.

(** [strings.HasPrefix] and [strings.TrimPrefix]. *)
Fixpoint cut_prefix (s prefix : string) : option string :=
  match prefix, s with
  | EmptyString, _ => Some s
  | String p prefix', String c s' =>
      if Ascii.eqb c p then cut_prefix s' prefix' else None
  | String _ _, EmptyString => None
  end.

Definition TrimPrefix (s prefix : string) : string :=
  default s (cut_prefix s prefix).

(** The UTF-8 encodings of the code points for which [unicode.IsSpace]
    holds: tab, LF, VT, FF, CR, space, U+0085, U+00A0, U+1680,
    U+2000..U+200A, U+2028, U+2029, U+202F, U+205F, U+3000. *)
Definition byte_string (bs : list Z) : string :=
  string_of_list_ascii (map (fun b => ascii_of_N (Z.to_N b)) bs).

Definition space_runes : list string :=
  map byte_string
    ([[9]; [10]; [11]; [12]; [13]; [32];
      [194; 133]; [194; 160]; [225; 154; 128]]
     ++ map (fun b => [226; 128; b]) [128; 129; 130; 131; 132; 133; 134; 135; 136; 137; 138]
     ++ [[226; 128; 168]; [226; 128; 169]; [226; 128; 175];
         [226; 129; 159]; [227; 128; 128]]).

(** The rest of [s] after one leading member of [runes], if it has one. *)
Definition cut_rune (runes : list string) (s : string) : option string :=
  list_find (fun r => is_Some (cut_prefix s r)) runes
    ≫= fun '(_, r) => cut_prefix s r.

(** Removes leading members of [runes] from [s], at most [fuel] of them. *)
Fixpoint trim_left (fuel : nat) (runes : list string) (s : string) : string :=
  match fuel with
  | O => s
  | S fuel' =>
      match cut_rune runes s with
      | Some rest => trim_left fuel' runes rest
      | None => s
      end
  end.

(** [strings.TrimSpace(s)]: [s] without its leading and trailing white
    space runes. A rune removed has at least one byte, so the length of
    the string is fuel enough. At the end of the string the decoder
    ([utf8.DecodeLastRuneInString]) steps back to the nearest lead byte;
    every multi-byte encoding above starts with one, so a trailing
    white-space rune is exactly a suffix equal to one of the encodings:
    a prefix of the reversed string equal to a reversed encoding. *)
Definition TrimSpace (s : string) : string :=
  let s1 := trim_left (String.length s) space_runes s in
  String.rev
    (trim_left (String.length s1) (map String.rev space_runes) (String.rev s1)).

End strings.

Module path.

(** One step of [path.Clean] on a path element, [out] being the elements
    kept so far, last one first:
    - an empty element (two slashes in a row, a leading or a trailing
      slash) and a [.] element are dropped;
    - a [..] element removes the last element kept, unless there is none
      or it is itself a kept [..]; then it is kept when the path is not
      rooted and dropped when it is;
    - any other element is kept. *)
Definition clean_step (rooted : bool) (out : list string) (elem : string)
  : list string :=
  if decide (elem = "") then out
  else if decide (elem = ".") then out
  else if decide (elem = "..") then
    match out with
    | last :: out' =>
        if decide (last = "..") then elem :: out else out'
    | [] => if rooted then out else [elem]
    end
  else elem :: out.

(** [path.Clean(p)]: the shortest path equivalent to [p] by lexical
    processing. The result is rooted when [p] is; an empty result
    is ["."]. *)
Definition Clean (p : string) : string :=
  match p with
  | EmptyString => "."
  | String c _ =>
      let rooted := Ascii.eqb c "/" in
      let out := foldl (clean_step rooted) [] (strings.Split p "/") in
      if rooted then "/" +:+ strings.Join (reverse out) "/"
      else match out with
           | [] => "."
           | _ => strings.Join (reverse out) "/"
           end
  end.

(** [path.Join(elem...)]: the elements from the first non-empty one on,
    joined with slashes and cleaned; the empty string when every element
    is empty. *)
Fixpoint Join (elem : list string) : string :=
  match elem with
  | [] => ""
  | e :: rest =>
      if decide (e = "") then Join rest
      else Clean (strings.Join elem "/")
  end.

End path.

(** ** The name normalizer *)

(** [len(elems)] as a Go [int]. *)
Definition len {A} (l : list A) : Z := Z.of_nat (length l).

(** The slice expression [elems[from:]]: a run-time panic when [from] is
    negative or beyond the length. *)
Definition slice_from {A} (elems : list A) (from : Z) : option (list A) :=
  if decide (0 <= from <= len elems) then Some (drop (Z.to_nat from) elems)
  else None.

Definition stripPathElements (pkgname : string) (strip : Z) : option string :=
  if decide (strip = 0) then Some pkgname
  else
    let elems := strings.Split pkgname "/" in
    if decide (strip > len elems) then Some ""
    else rest ← slice_from elems strip; Some (path.Join rest).

Definition mungePackageName (n : string) (strip : Z) (prefix : string)
  : option string :=
  n ← stripPathElements n strip;
  let n := path.Join [prefix; n] in
  let n := strings.Replace n "." "-" in
  let n := strings.Replace n "/" "." in
  Some n.

(** ** Durations and their rendering *)

Module time.

(** [time.Duration]: a count of nanoseconds. *)
Definition Duration := Z.

Definition Second : Duration := 1000000000.

(** IEEE 754 binary64, by the Standard Library's specification of
    floating-point arithmetic: 53 bits of precision, [emax = 1024],
    rounding to nearest, ties to even. *)
Definition float64 := spec_float.

Definition float64_of_int (n : Z) : float64 := binary_normalize 53 1024 n 0 false.

(** [d.Seconds()]: [float64(d / Second) + float64(d % Second) / 1e9], with
    Go's integer division, which truncates towards zero. *)
Definition Seconds (d : Duration) : float64 :=
  let sec := Z.quot d Second in
  let nsec := Z.rem d Second in
  SFadd 53 1024 (float64_of_int sec)
    (SFdiv 53 1024 (float64_of_int nsec) (float64_of_int 1000000000)).

End time.

Module fmt.

Definition decimal (n : Z) : string :=
  NilZero.string_of_uint (N.to_uint (Z.to_N n)).

(** [m * 2^e * 10^6] rounded to the nearest integer, ties to even. *)
Definition round_micro (m e : Z) : Z :=
  if decide (0 <= e) then m * 2 ^ e * 1000000
  else
    let d := 2 ^ (- e) in
    let q := (m * 1000000) / d in
    let r := (m * 1000000) mod d in
    if decide (2 * r < d) then q
    else if decide (2 * r > d) then q + 1
    else if Z.even q then q else q + 1.

(** [fmt.Sprintf("%f", x)]: the sign, the integer part, a point and six
    fractional digits, of the exact value of [x] rounded at the sixth
    fractional digit. *)
Definition Sprintf_f (x : time.float64) : string :=
  let render (s : bool) (micro : Z) :=
    (if s then "-" else "")
    +:+ decimal (micro / 1000000) +:+ "."
    +:+ substring 1 6 (decimal (1000000 + micro mod 1000000)) in
  match x with
  | S754_zero s => render s 0
  | S754_finite s m e => render s (round_micro (Z.pos m) e)
  | S754_infinity s => if s then "-Inf" else "+Inf"
  | S754_nan => "NaN"
  end.

End fmt.

Definition formatDurationAsSeconds (d : time.Duration) : string :=
  fmt.Sprintf_f (time.Seconds d).

(** ** The execution model read by the generator *)

Module testjson.

(** Modelled from the spec: the declaration of [testjson.TestCase] is not
    among the sources; the generator reads a package name, a test name
    and an elapsed duration from it. *)
Module TestCase.
Record t := mk {
  Package : string;
  Test : string;
  Elapsed : time.Duration;
}.
End TestCase.

(** Modelled from the spec: the declaration of [testjson.Package] is not
    among the sources. The generator reads the total count, the three
    ordered partitions of test cases, the elapsed duration, the
    driver-failure flag ([TestMainFailed]) and the captured output keyed
    by test name (the empty name for the output of the whole package). *)
Module Package.
Record t := mk {
  Total : Z;
  Failed : list TestCase.t;
  Skipped : list TestCase.t;
  Passed : list TestCase.t;
  Elapsed : time.Duration;
  TestMainFailed : bool;
  Output : string → string;
}.
End Package.

(** Modelled from the spec: the declaration of [testjson.Execution] is
    not among the sources. The generator reads the ordered package names
    and looks a package up by name. *)
Module Execution.
Record t := mk {
  Packages : list string;
  Package : string → Package.t;
}.
End Execution.

End testjson.

(** ** The report tree

    The [XMLName] fields of the Go structs carry the element names for the
    encoder only and are never assigned; they are left out. A pointer field
    is an [option]. *)

Module JUnitSkipMessage.
Record t := mk { Message : string }.
End JUnitSkipMessage.

Module JUnitProperty.
Record t := mk { Name : string; Value : string }.
End JUnitProperty.

Module JUnitFailure.
Record t := mk { Message : string; Type_ : string; Contents : string }.
End JUnitFailure.

Module JUnitTestCase.
Record t := mk {
  Classname : string;
  Name : string;
  Time : string;
  SkipMessage : option JUnitSkipMessage.t;
  Failure : option JUnitFailure.t;
}.
End JUnitTestCase.

Module JUnitTestSuite.
Record t := mk {
  Tests : Z;
  Failures : Z;
  Time : string;
  Name : string;
  Properties : list JUnitProperty.t;
  TestCases : list JUnitTestCase.t;
}.
End JUnitTestSuite.

Module JUnitTestSuites.
Record t := mk { Suites : list JUnitTestSuite.t }.
End JUnitTestSuites.

(** ** The process environment *)

(** A Go [error] value: a message, possibly wrapped with context. *)
Inductive error :=
| errorString (msg : string)
| withMessage (cause : error) (msg : string).

(** [errors.Wrap(err, message)]: [nil] stays [nil]. *)
Definition errors_Wrap (err : option error) (message : string) : option error :=
  (λ cause, withMessage cause message) <$> err.

Module os.

(** What the generator observes of the process it runs in: the
    environment variables, and the outcome of running [go version] and
    collecting its standard output ([exec.Command("go", "version").Output()]). *)
Record Process := mk {
  environ : gmap string string;
  go_version_Output : error + string;
}.

Definition LookupEnv (p : Process) (key : string) : option string :=
  environ p !! key.

Definition Getenv (p : Process) (key : string) : string :=
  default "" (LookupEnv p key).

(** [os.Setenv(key, value)]. *)
Definition Setenv (p : Process) (key value : string) : Process :=
  mk (<[key := value]> (environ p)) (go_version_Output p).

End os.

Module logrus.
Inductive Level := DebugLevel | WarnLevel.
(** A log call: its level, the error attached with [WithError], and the
    message. *)
Record Entry := mk { level : Level; err : option error; message : string }.
End logrus.

(** ** The toolchain version resolver *)

(** [goVersion], with the log calls it makes on the way. *)
Definition goVersion_run (p : os.Process) : list logrus.Entry * string :=
  match os.LookupEnv p "GOVERSION" with
  | Some version => ([], version)
  | None =>
      let debug := logrus.mk logrus.DebugLevel None "exec: go version" in
      match os.go_version_Output p with
      | inl err =>
          ([debug;
            logrus.mk logrus.WarnLevel (Some err)
              "failed to lookup go version for junit xml"],
           "unknown")
      | inr out =>
          ([debug], strings.TrimPrefix (strings.TrimSpace out) "go version ")
      end
  end.

Definition goVersion (p : os.Process) : string := (goVersion_run p).2.

(** ** The suite builder *)

Definition packageProperties (goVersion : string) : list JUnitProperty.t :=
  [JUnitProperty.mk "go.version" goVersion].

Definition newJUnitTestCase (tc : testjson.TestCase.t) (strip : Z) (prefix : string)
  : option JUnitTestCase.t :=
  classname ← mungePackageName (testjson.TestCase.Package tc) strip prefix;
  Some (JUnitTestCase.mk classname (testjson.TestCase.Test tc)
          (formatDurationAsSeconds (testjson.TestCase.Elapsed tc)) None None).

Definition with_Failure (jtc : JUnitTestCase.t) (f : JUnitFailure.t) : JUnitTestCase.t :=
  JUnitTestCase.mk (JUnitTestCase.Classname jtc) (JUnitTestCase.Name jtc)
    (JUnitTestCase.Time jtc) (JUnitTestCase.SkipMessage jtc) (Some f).

Definition with_SkipMessage (jtc : JUnitTestCase.t) (m : JUnitSkipMessage.t)
  : JUnitTestCase.t :=
  JUnitTestCase.mk (JUnitTestCase.Classname jtc) (JUnitTestCase.Name jtc)
    (JUnitTestCase.Time jtc) (Some m) (JUnitTestCase.Failure jtc).

(** The zero-valued test case named [TestMain] used for a package whose
    test driver failed. *)
Definition TestMain_case : testjson.TestCase.t :=
  testjson.TestCase.mk "" "TestMain" 0.

(** The bodies of the three loops of [packageTestCases]. *)
Definition failed_case (pkg : testjson.Package.t) (strip : Z) (prefix : string)
    (tc : testjson.TestCase.t) : option JUnitTestCase.t :=
  jtc ← newJUnitTestCase tc strip prefix;
  Some (with_Failure jtc
          (JUnitFailure.mk "Failed" ""
             (testjson.Package.Output pkg (testjson.TestCase.Test tc)))).

Definition skipped_case (pkg : testjson.Package.t) (strip : Z) (prefix : string)
    (tc : testjson.TestCase.t) : option JUnitTestCase.t :=
  jtc ← newJUnitTestCase tc strip prefix;
  Some (with_SkipMessage jtc
          (JUnitSkipMessage.mk
             (testjson.Package.Output pkg (testjson.TestCase.Test tc)))).

Definition passed_case (strip : Z) (prefix : string) (tc : testjson.TestCase.t)
  : option JUnitTestCase.t :=
  newJUnitTestCase tc strip prefix.

Definition packageTestCases (pkg : testjson.Package.t) (strip : Z) (prefix : string)
  : option (list JUnitTestCase.t) :=
  main ← (if testjson.Package.TestMainFailed pkg then
            jtc ← newJUnitTestCase TestMain_case strip prefix;
            Some [with_Failure jtc
                    (JUnitFailure.mk "Failed" "" (testjson.Package.Output pkg ""))]
          else Some []);
  failed ← mapM (failed_case pkg strip prefix) (testjson.Package.Failed pkg);
  skipped ← mapM (skipped_case pkg strip prefix) (testjson.Package.Skipped pkg);
  passed ← mapM (passed_case strip prefix) (testjson.Package.Passed pkg);
  Some (main ++ failed ++ skipped ++ passed).

(** The body of the loop of [generate] for one package name. *)
Definition generate_suite (p : os.Process) (version : string)
    (exec : testjson.Execution.t) (strip : Z) (prefix : string) (pkgname : string)
  : option JUnitTestSuite.t :=
  let pkg := testjson.Execution.Package exec pkgname in
  pkgname ← (let x := os.Getenv p "GOTESTSUM_SUITE" in
             if decide (x ≠ "") then Some x
             else mungePackageName pkgname strip prefix);
  cases ← packageTestCases pkg strip prefix;
  Some (JUnitTestSuite.mk
          (testjson.Package.Total pkg)
          (len (testjson.Package.Failed pkg))
          (formatDurationAsSeconds (testjson.Package.Elapsed pkg))
          pkgname
          (packageProperties version)
          cases).

Definition generate (p : os.Process) (exec : testjson.Execution.t)
    (strip : Z) (prefix : string) : option JUnitTestSuites.t :=
  let version := goVersion p in
  suites ← mapM (generate_suite p version exec strip prefix)
             (testjson.Execution.Packages exec);
  Some (JUnitTestSuites.mk suites).

(** ** The writer *)

Module xml.

(** [xml.Header]: the XML declaration followed by a newline. *)
Definition Header : string :=
  let q := strings.byte_string [34] in
  "<?xml version=" +:+ q +:+ "1.0" +:+ q +:+ " encoding=" +:+ q +:+ "UTF-8" +:+ q
  +:+ "?>" +:+ strings.byte_string [10].

(** The signature of [xml.MarshalIndent] at the type of the report tree:
    the tree, the prefix and the indent give the encoded document or an
    error. The encoder belongs to the Go library and is a parameter of
    the writer below. *)
Definition MarshalIndent_t : Type :=
  JUnitTestSuites.t → string → string → error + string.

End xml.

Module io.

(** An [io.Writer]: a sink whose [Write] method, given the bytes, leaves
    the sink in a new state and returns the number of bytes written and
    an error. *)
Class Writer (W : Type) := Writer_Write : W → string → W * Z * option error.

End io.

(** [bytes.Buffer] as a writer: the bytes are appended, no error. *)
Global Instance Buffer_Writer : io.Writer string :=
  λ buf p, (buf +:+ p, Z.of_nat (String.length p), None).

Section writer.
Context {W : Type} `{!io.Writer W}.
Variable MarshalIndent : xml.MarshalIndent_t.

(** [write]: the sink after the call and the error returned. *)
Definition write (out : W) (suites : JUnitTestSuites.t) : W * option error :=
  match MarshalIndent suites "" (strings.byte_string [9]) with
  | inl err => (out, Some err)
  | inr doc =>
      let '(out, _, err) := io.Writer_Write out xml.Header in
      match err with
      | Some err => (out, Some err)
      | None =>
          let '(out, _, err) := io.Writer_Write out doc in
          (out, err)
      end
  end.

(** [Write]: [generate] runs before [write] is entered, so a panic in it
    ([None]) leaves the sink as it was. *)
Definition Write (p : os.Process) (out : W) (exec : testjson.Execution.t)
    (strip : Z) (prefix : string) : option (W * option error) :=
  suites ← generate p exec strip prefix;
  let '(out, err) := write out suites in
  Some (out, errors_Wrap err "failed to write JUnit XML").

End writer.

(** ** The normalizer as the specification words it *)

(** The separator translation: every dot becomes a hyphen, then every
    slash becomes a dot. *)
Definition translate (n : string) : string :=
  strings.Replace (strings.Replace n "." "-") "/" ".".

(** The algorithm in the words of the specification: split the name on
    the separator; the remainder is empty if the strip count exceeds the
    number of segments, otherwise the segments after the first [strip];
    join the prefix and the remainder with the separator, where an empty
    prefix or an empty remainder leaves the other one alone; translate the
    separators. *)
Definition spec_normalize (name : string) (strip : Z) (prefix : string) : string :=
  let segments := strings.Split name "/" in
  let remaining :=
    if decide (strip > len segments) then [] else drop (Z.to_nat strip) segments in
  let remainder := strings.Join remaining "/" in
  let joined :=
    if decide (prefix = "") then remainder
    else if decide (remainder = "") then prefix
    else prefix +:+ "/" +:+ remainder in
  translate joined.

(** A path element that [path.Clean] keeps as it is. *)
Definition regular (elem : string) : Prop :=
  elem ≠ "" ∧ elem ≠ "." ∧ elem ≠ "..".

Global Instance regular_dec elem : Decision (regular elem).
Proof. unfold regular. apply _. Defined.

(** A path in clean relative form: empty, or non-empty elements other than
    [.] and [..] separated by single slashes. *)
Definition clean_path (p : string) : Prop :=
  p = "" ∨ Forall regular (strings.Split p "/").

Global Instance clean_path_dec p : Decision (clean_path p).
Proof. unfold clean_path. apply _. Defined.

(** ** The case records of a package, described *)

(** What a case record holds for a source test case [tc] of package [pkg]
    with a given outcome: the name and the elapsed time of the test case,
    and the annotation of the outcome. *)
Definition is_record (tc : testjson.TestCase.t) (jtc : JUnitTestCase.t) : Prop :=
  JUnitTestCase.Name jtc = testjson.TestCase.Test tc ∧
  JUnitTestCase.Time jtc = formatDurationAsSeconds (testjson.TestCase.Elapsed tc).

Definition is_failed_record (pkg : testjson.Package.t)
    (tc : testjson.TestCase.t) (jtc : JUnitTestCase.t) : Prop :=
  is_record tc jtc ∧
  JUnitTestCase.SkipMessage jtc = None ∧
  JUnitTestCase.Failure jtc =
    Some (JUnitFailure.mk "Failed" ""
            (testjson.Package.Output pkg (testjson.TestCase.Test tc))).

Definition is_skipped_record (pkg : testjson.Package.t)
    (tc : testjson.TestCase.t) (jtc : JUnitTestCase.t) : Prop :=
  is_record tc jtc ∧
  JUnitTestCase.SkipMessage jtc =
    Some (JUnitSkipMessage.mk
            (testjson.Package.Output pkg (testjson.TestCase.Test tc))) ∧
  JUnitTestCase.Failure jtc = None.

Definition is_passed_record (tc : testjson.TestCase.t) (jtc : JUnitTestCase.t) : Prop :=
  is_record tc jtc ∧
  JUnitTestCase.SkipMessage jtc = None ∧
  JUnitTestCase.Failure jtc = None.

(** The synthetic driver-failure record: named [TestMain], failed, with
    the output of the whole package. *)
Definition is_TestMain_record (pkg : testjson.Package.t)
    (tc : testjson.TestCase.t) (jtc : JUnitTestCase.t) : Prop :=
  tc = TestMain_case ∧
  is_record tc jtc ∧
  JUnitTestCase.SkipMessage jtc = None ∧
  JUnitTestCase.Failure jtc =
    Some (JUnitFailure.mk "Failed" "" (testjson.Package.Output pkg "")).

(** The synthetic driver-failure case as [packageTestCases] builds it, in
    the form of a loop body over [main_cases] below. *)
Definition main_case (pkg : testjson.Package.t) (strip : Z) (prefix : string)
    (tc : testjson.TestCase.t) : option JUnitTestCase.t :=
  jtc ← newJUnitTestCase tc strip prefix;
  Some (with_Failure jtc
          (JUnitFailure.mk "Failed" "" (testjson.Package.Output pkg ""))).

(** The source test cases of a package in the order of their records. *)
Definition main_cases (pkg : testjson.Package.t) : list testjson.TestCase.t :=
  if testjson.Package.TestMainFailed pkg then [TestMain_case] else [].

Definition source_cases (pkg : testjson.Package.t) : list testjson.TestCase.t :=
  main_cases pkg ++ testjson.Package.Failed pkg
  ++ testjson.Package.Skipped pkg ++ testjson.Package.Passed pkg.

(** The case records [cases] are the synthetic driver-failure record, if
    the flag is set, then the records of the failed, the skipped and the
    passed cases, each group in the order of its partition. *)
Definition cases_in_order (pkg : testjson.Package.t)
    (cases : list JUnitTestCase.t) : Prop :=
  ∃ main failed skipped passed,
    cases = main ++ failed ++ skipped ++ passed ∧
    Forall2 (is_TestMain_record pkg) (main_cases pkg) main ∧
    Forall2 (is_failed_record pkg) (testjson.Package.Failed pkg) failed ∧
    Forall2 (is_skipped_record pkg) (testjson.Package.Skipped pkg) skipped ∧
    Forall2 is_passed_record (testjson.Package.Passed pkg) passed.

(** The number of case records that carry a failure annotation. *)
Definition failure_records (cases : list JUnitTestCase.t) : Z :=
  len (filter (λ jtc, is_Some (JUnitTestCase.Failure jtc)) cases).

(** ** Example inputs *)

(** A process with an empty environment and no [go] binary to run. *)
Definition bare_process : os.Process :=
  os.mk ∅ (inl (errorString "exec: go: executable file not found in $PATH")).

(** A package whose test driver failed before any test ran. *)
Definition badmain : testjson.Package.t :=
  testjson.Package.mk 0 [] [] [] 10000000 true
    (λ test, if decide (test = "") then "sometimes main can exit 2" else "").

(** A package with one failed, one skipped and two passed tests. *)
Definition good : testjson.Package.t :=
  let tc := testjson.TestCase.mk "example.com/mod/good" in
  testjson.Package.mk 4
    [tc "TestFailed" 1500] [tc "TestSkipped" 0]
    [tc "TestPassed" 20000000; tc "TestPassedToo" 7812500]
    30000000 false (λ test, "=== RUN " +:+ test).

Definition example_exec : testjson.Execution.t :=
  testjson.Execution.mk ["example.com/mod/badmain"; "example.com/mod/good"]
    (λ pkgname, if decide (pkgname = "example.com/mod/badmain") then badmain else good).

Definition badmain_exec : testjson.Execution.t :=
  testjson.Execution.mk ["example.com/mod/badmain"] (λ _, badmain).

(** Paths and their cleaned forms, from the test table of Go's [path]
    package. *)
Definition cleantests : list (string * string) :=
  [("", "."); ("abc", "abc"); ("abc/def", "abc/def"); ("a/b/c", "a/b/c");
   (".", "."); ("..", ".."); ("../..", "../.."); ("../../abc", "../../abc");
   ("/abc", "/abc"); ("/", "/"); ("abc/", "abc"); ("abc/def/", "abc/def");
   ("a/b/c/", "a/b/c"); ("./", "."); ("../", ".."); ("../../", "../..");
   ("/abc/", "/abc"); ("abc//def//ghi", "abc/def/ghi"); ("//abc", "/abc");
   ("///abc", "/abc"); ("//abc//", "/abc"); ("abc//", "abc");
   ("abc/./def", "abc/def"); ("/./abc/def", "/abc/def"); ("abc/.", "abc");
   ("abc/def/ghi/../jkl", "abc/def/jkl"); ("abc/def/../ghi/../jkl", "abc/jkl");
   ("abc/def/..", "abc"); ("abc/def/../..", "."); ("/abc/def/../..", "/");
   ("abc/def/../../..", ".."); ("/abc/def/../../..", "/");
   ("abc/def/../../../ghi/jkl/../../../mno", "../../mno");
   ("abc/./../def", "def"); ("abc//./../def", "def");
   ("abc/../../././../def", "../../def")].

(** The inputs of [TestMungePackageName]: strip count and prefix, for the
    name ["a/b/c/d/e/f"]. *)
Definition munge_tests : list (Z * string) :=
  [(0, ""); (1, ""); (3, ""); (5, ""); (6, ""); (7, ""); (0, "1/2/3");
   (0, "1/2/3/"); (3, "1/2/3"); (6, "1/2/3"); (7, "1/2/3")].

(** An encoder that fails, and one that writes a fixed document. *)
Definition failing_MarshalIndent : xml.MarshalIndent_t :=
  λ _ _ _, inl (errorString "xml: unsupported type").

Definition fixed_MarshalIndent : xml.MarshalIndent_t :=
  λ _ _ _, inr "<testsuites></testsuites>".

(** ** Further descriptions *)

(** A path segment with its dots turned into hyphens. *)
Definition hyphenate (elem : string) : string := strings.Replace elem "." "-".

(** The bytes of a string. *)
Definition bytes (s : string) : list ascii := list_ascii_of_string s.

(** A sink that records the bytes of every [Write] call made on it and
    answers each call with the next outcome of a script, [None] standing
    for success; once the script is used up every call succeeds. A failed
    call reports no byte written. *)
Module recorder.
Record t := mk { calls : list string; script : list (option error) }.
End recorder.

Global Instance Recorder_Writer : io.Writer recorder.t :=
  λ w p,
    match recorder.script w with
    | Some err :: rest => (recorder.mk (recorder.calls w ++ [p]) rest, 0, Some err)
    | None :: rest =>
        (recorder.mk (recorder.calls w ++ [p]) rest, Z.of_nat (String.length p), None)
    | [] => (recorder.mk (recorder.calls w ++ [p]) [], Z.of_nat (String.length p), None)
    end.

(** * Properties *)

(** ** Splitting and joining *)

Section split_join.

Lemma Split_not_nil s : strings.Split s "/" ≠ [].
Proof.
  destruct s as [|c s]; simpl; [done|].
  destruct (Ascii.eqb c "/"); [done|].
  by destruct (strings.Split s "/").
Qed.

Lemma Split_cons s c :
  strings.Split (String c s) "/" =
    if Ascii.eqb c "/" then "" :: strings.Split s "/"
    else match strings.Split s "/" with
         | piece :: pieces => String c piece :: pieces
         | [] => [String c ""]
         end.
Proof. done. Qed.

Lemma Join_cons e e' rest :
  strings.Join (e :: e' :: rest) "/" = e +:+ "/" +:+ strings.Join (e' :: rest) "/".
Proof. done. Qed.

(** Joining the pieces of a string gives the string back. *)
Lemma Join_Split s : strings.Join (strings.Split s "/") "/" = s.
Proof.
  induction s as [|c s IH]; [done|].
  rewrite Split_cons.
  destruct (Ascii.eqb_spec c "/") as [->|Hc].
  - pose proof (Split_not_nil s) as Hnil.
    destruct (strings.Split s "/") as [|e rest] eqn:Hs; [done|].
    rewrite Join_cons, IH. done.
  - pose proof (Split_not_nil s) as Hnil.
    destruct (strings.Split s "/") as [|e rest] eqn:Hs; [done|].
    destruct rest as [|e' rest].
    + simpl in *. by rewrite IH.
    + rewrite <- IH. by rewrite !Join_cons.
Qed.

(** The pieces of two strings put together with a slash. *)
Lemma Split_app s t :
  strings.Split (s +:+ "/" +:+ t) "/" = strings.Split s "/" ++ strings.Split t "/".
Proof.
  induction s as [|c s IH]; [done|].
  change (String c s +:+ "/" +:+ t) with (String c (s +:+ "/" +:+ t)).
  rewrite !Split_cons, IH.
  destruct (Ascii.eqb c "/"); [done|].
  pose proof (Split_not_nil s) as Hnil.
  by destruct (strings.Split s "/").
Qed.

(** Every non-empty tail of the pieces of a string is the pieces of a
    string. *)
Lemma Split_tail s e rest :
  strings.Split s "/" = e :: rest → rest ≠ [] →
  ∃ s', strings.Split s' "/" = rest.
Proof.
  revert e rest. induction s as [|c s IH]; intros e rest.
  - simpl. by intros [= _ <-].
  - rewrite Split_cons. destruct (Ascii.eqb c "/").
    + intros [= _ <-] _. by exists s.
    + pose proof (Split_not_nil s) as Hnil.
      destruct (strings.Split s "/") as [|e0 rest0] eqn:Hs; [done|].
      intros [= _ <-] Hrest. by apply (IH e0 rest0).
Qed.

Lemma Split_drop k s :
  drop k (strings.Split s "/") = [] ∨
  ∃ s', strings.Split s' "/" = drop k (strings.Split s "/").
Proof.
  revert s. induction k as [|k IH]; intros s.
  - right. by exists s.
  - destruct (strings.Split s "/") as [|e rest] eqn:Hs; [by left|].
    simpl. destruct (decide (rest = [])) as [->|Hrest].
    + left. by destruct k.
    + destruct (Split_tail s e rest Hs Hrest) as [s' <-]. apply IH.
Qed.

(** A string that starts with a slash has an empty first piece. *)
Lemma Split_rooted s : strings.Split (String "/" s) "/" = "" :: strings.Split s "/".
Proof. done. Qed.

End split_join.

(** ** Lexical cleaning *)

Section clean.

(** The model of [path.Clean] on the test table of Go's [path] package. *)
Lemma Clean_cleantests :
  Forall (λ '(p, cleaned), path.Clean p = cleaned) cleantests.
Proof. repeat constructor. Qed.

Lemma clean_step_regular rooted out elem :
  regular elem → path.clean_step rooted out elem = elem :: out.
Proof.
  intros (? & ? & ?). unfold path.clean_step.
  by repeat case_decide.
Qed.

Lemma clean_steps_regular rooted out elems :
  Forall regular elems →
  foldl (path.clean_step rooted) out elems = reverse elems ++ out.
Proof.
  intros Hreg. revert out.
  induction Hreg as [|e elems He _ IH]; intros out; [done|].
  simpl. rewrite clean_step_regular, IH, reverse_cons by done.
  by rewrite <- app_assoc.
Qed.

(** A rooted path has an empty first element, which is not regular. *)
Lemma regular_not_rooted c s :
  Forall regular (strings.Split (String c s) "/") → Ascii.eqb c "/" = false.
Proof.
  destruct (Ascii.eqb_spec c "/") as [->|]; [|done].
  rewrite Split_rooted. intros [[[] _] _]%Forall_cons. done.
Qed.

(** [path.Clean] leaves a path in clean relative form as it is. *)
Lemma Clean_clean p :
  p ≠ "" → Forall regular (strings.Split p "/") → path.Clean p = p.
Proof.
  intros Hp Hreg. destruct p as [|c s]; [done|].
  unfold path.Clean. rewrite (regular_not_rooted c s Hreg).
  cbv zeta. rewrite clean_steps_regular, app_nil_r by done.
  pose proof (Split_not_nil (String c s)) as Hnil.
  destruct (reverse (strings.Split (String c s) "/")) as [|e out] eqn:Hrev.
  - by apply (f_equal reverse) in Hrev; rewrite reverse_involutive in Hrev.
  - by rewrite <- Hrev, reverse_involutive, Join_Split.
Qed.

(** A trailing slash does not change the cleaned path. *)
Lemma Clean_trailing_slash p :
  p ≠ "" → path.Clean (p +:+ "/" +:+ "") = path.Clean p.
Proof.
  intros Hp. destruct p as [|c s]; [done|].
  change (String c s +:+ "/" +:+ "") with (String c (s +:+ "/" +:+ "")).
  unfold path.Clean.
  change (String c (s +:+ "/" +:+ "")) with (String c s +:+ "/" +:+ "").
  by rewrite Split_app, foldl_app.
Qed.

Lemma path_Join_pair prefix n :
  path.Join [prefix; n] =
    if decide (prefix = "") then
      if decide (n = "") then "" else path.Clean n
    else path.Clean (prefix +:+ "/" +:+ n).
Proof. simpl. by repeat case_decide. Qed.

(** Joining a prefix and a remainder that are both in clean relative
    form puts a slash between them, unless one of them is empty. *)
Lemma path_Join_clean prefix n :
  clean_path prefix → clean_path n →
  path.Join [prefix; n] =
    if decide (prefix = "") then n
    else if decide (n = "") then prefix
    else prefix +:+ "/" +:+ n.
Proof.
  intros Hprefix Hn. rewrite path_Join_pair.
  destruct (decide (prefix = "")) as [->|Hp].
  - case_decide; [done|]. destruct Hn as [?|Hn]; [done|]. by apply Clean_clean.
  - destruct Hprefix as [?|Hprefix]; [done|].
    destruct (decide (n = "")) as [->|Hn'].
    + rewrite Clean_trailing_slash by done. by apply Clean_clean.
    + destruct Hn as [?|Hn]; [done|].
      apply Clean_clean; [by destruct prefix|].
      rewrite Split_app. by apply Forall_app.
Qed.

End clean.

(** ** The name normalizer *)

Section normalizer.

Lemma len_Split_pos s : 1 ≤ len (strings.Split s "/").
Proof.
  pose proof (Split_not_nil s). unfold len.
  destruct (strings.Split s "/"); [done|]. simpl. lia.
Qed.

Lemma path_Join_cons e rest :
  e ≠ "" → path.Join (e :: rest) = path.Clean (strings.Join (e :: rest) "/").
Proof.
  intros He.
  change (path.Join (e :: rest)) with
    (if decide (e = "") then path.Join rest
     else path.Clean (strings.Join (e :: rest) "/")).
  by case_decide.
Qed.

(** [path.Join] of the elements of a path in clean relative form. *)
Lemma path_Join_Split s :
  clean_path s → path.Join (strings.Split s "/") = s.
Proof.
  intros [->|Hreg]; [done|].
  assert (s ≠ "") as Hs by (by intros ->; apply Forall_cons in Hreg as [[] _]).
  destruct (strings.Split s "/") as [|e rest] eqn:Hsplit;
    [by apply Split_not_nil in Hsplit|].
  pose proof Hreg as [[He _] _]%Forall_cons.
  rewrite path_Join_cons, <- Hsplit, Join_Split by done.
  apply Clean_clean; [done|by rewrite Hsplit].
Qed.

(** Stripping the first [strip] elements of a clean name. *)
Lemma stripPathElements_clean name strip :
  clean_path name → 0 ≤ strip →
  ∃ rem,
    stripPathElements name strip = Some rem ∧ clean_path rem ∧
    rem = strings.Join
            (if decide (strip > len (strings.Split name "/")) then []
             else drop (Z.to_nat strip) (strings.Split name "/")) "/".
Proof.
  intros Hname Hstrip. unfold stripPathElements.
  pose proof (len_Split_pos name) as Hlen.
  destruct (decide (strip = 0)) as [->|Hnz].
  { exists name. rewrite decide_False by lia.
    change (Z.to_nat 0) with 0%nat. by rewrite drop_0, Join_Split. }
  destruct (decide (strip > len (strings.Split name "/"))) as [Hgt|Hle].
  { exists "". split_and!; [done|by left|done]. }
  unfold slice_from. rewrite decide_True by lia. simpl.
  eexists. split; [done|].
  destruct (Split_drop (Z.to_nat strip) name) as [->|[s' Hs']].
  { split; [by left|done]. }
  rewrite <- Hs', Join_Split.
  assert (clean_path s') as Hclean.
  { right. rewrite Hs'. apply Forall_drop.
    destruct Hname as [->|]; [|done].
    simpl in *. destruct (Z.to_nat strip) eqn:Hk; [lia|].
    simpl in Hs'. rewrite drop_nil in Hs'. by apply Split_not_nil in Hs'. }
  by rewrite path_Join_Split.
Qed.

End normalizer.

Section normalizer_claims.

(** What [mungePackageName] returns on the inputs of
    [TestMungePackageName]. *)
Lemma mungePackageName_munge_tests :
  map (λ '(strip, prefix), mungePackageName "a/b/c/d/e/f" strip prefix) munge_tests
  = map Some
      ["a.b.c.d.e.f"; "b.c.d.e.f"; "d.e.f"; "f"; ""; ""; "1.2.3.a.b.c.d.e.f";
       "1.2.3.a.b.c.d.e.f"; "1.2.3.d.e.f"; "1.2.3"; "1.2.3"].
Proof. by vm_compute. Qed.

(** Durations rendered as decimal seconds with six fractional digits;
    7812500 ns is half-way between two renderings and goes to the even
    one. *)
Lemma formatDurationAsSeconds_examples :
  map formatDurationAsSeconds [0; 1500; 7812500; 20000000; 1234567890; -1500000000]
  = ["0.000000"; "0.000002"; "0.007812"; "0.020000"; "1.234568"; "-1.500000"].
Proof. by vm_compute. Qed.

Lemma mungePackageName_stripped n strip prefix rem :
  stripPathElements n strip = Some rem →
  mungePackageName n strip prefix = Some (translate (path.Join [prefix; rem])).
Proof. intros Hrem. unfold mungePackageName. by rewrite Hrem. Qed.

Lemma mungePackageName_strip0 n prefix :
  mungePackageName n 0 prefix = Some (translate (path.Join [prefix; n])).
Proof. by apply mungePackageName_stripped. Qed.

(** With nothing to strip and no prefix the normalizer cleans the name
    lexically and translates the separators. *)
Lemma mungePackageName_no_strip_Clean n :
  mungePackageName n 0 "" =
    Some (translate (if decide (n = "") then "" else path.Clean n)).
Proof. by rewrite mungePackageName_strip0, path_Join_pair. Qed.

(** A name in clean relative form only has its separators translated. *)
Lemma mungePackageName_no_strip_clean n :
  clean_path n → mungePackageName n 0 "" = Some (translate n).
Proof.
  rewrite mungePackageName_no_strip_Clean.
  intros [->|Hreg]; [done|]. case_decide; [by subst|].
  by rewrite Clean_clean.
Qed.

(** Stripping as many elements as the name has, or more, leaves the
    empty string and is no error. *)
Lemma stripPathElements_all name strip :
  len (strings.Split name "/") ≤ strip →
  stripPathElements name strip = Some "".
Proof.
  intros Hstrip. pose proof (len_Split_pos name) as Hlen.
  unfold stripPathElements, slice_from.
  rewrite decide_False by lia. case_decide; [done|].
  rewrite decide_True by lia. simpl.
  rewrite drop_ge; [done|]. unfold len in *. lia.
Qed.

(** C3 (as amended). For a name and a prefix in clean relative form and
    a strip count that is not negative, [mungePackageName] returns what
    the algorithm of the specification gives: the name split on the
    slash, the first [strip] segments dropped (nothing left when [strip]
    exceeds their number), the prefix and the remaining segments joined
    with slashes, every dot replaced by a hyphen and then every slash by
    a dot. In particular ["github.com/org/pkg"] with no strip and no
    prefix gives ["github-com.org.pkg"]. *)
Theorem mungePackageName_spec_normalize name strip prefix :
  clean_path name → clean_path prefix → 0 ≤ strip →
  mungePackageName name strip prefix = Some (spec_normalize name strip prefix) ∧
  mungePackageName "github.com/org/pkg" 0 "" = Some "github-com.org.pkg".
Proof.
  intros Hname Hprefix Hstrip. split; [|done].
  destruct (stripPathElements_clean name strip Hname Hstrip)
    as (rem & Hrem & Hclean & Hjoin).
  rewrite (mungePackageName_stripped _ _ _ _ Hrem), path_Join_clean by done.
  unfold spec_normalize. by rewrite <- Hjoin.
Qed.

Lemma mungePackageName_spec_normalize_witness :
  mungePackageName "a/b/c/d/e/f" 3 "1/2/3" = Some "1.2.3.d.e.f".
Proof.
  refine (proj1 (mungePackageName_spec_normalize "a/b/c/d/e/f" 3 "1/2/3" _ _ _)).
  - right. vm_compute. repeat constructor; discriminate.
  - right. vm_compute. repeat constructor; discriminate.
  - lia.
Defined.

(** C3 refuted as it is stated, for every name, strip count and prefix:
    [path.Join] cleans the joined path, so the trailing slash of a prefix
    (the case [prefix_trailing] of [TestMungePackageName]), a [.] or [..]
    segment and an empty segment do not reach the result; and a negative
    strip count is a run-time panic. *)
Lemma mungePackageName_spec_normalize_counterexample :
  (mungePackageName "a/b/c/d/e/f" 0 "1/2/3/" = Some "1.2.3.a.b.c.d.e.f" ∧
   spec_normalize "a/b/c/d/e/f" 0 "1/2/3/" = "1.2.3..a.b.c.d.e.f") ∧
  (mungePackageName "a/./b" 0 "" = Some "a.b" ∧
   spec_normalize "a/./b" 0 "" = "a.-.b") ∧
  (mungePackageName "a/../b" 0 "" = Some "b" ∧
   spec_normalize "a/../b" 0 "" = "a.--.b") ∧
  (mungePackageName "a//b" 0 "" = Some "a.b" ∧
   spec_normalize "a//b" 0 "" = "a..b") ∧
  mungePackageName "a" (-1) "" = None.
Proof. by vm_compute. Qed.

(** C4 (as amended). With no strip and no prefix [mungePackageName]
    returns the lexically cleaned name ([path.Clean]) with the separators
    translated; a name in clean relative form is returned unchanged
    except for the separator translation. *)
Theorem mungePackageName_identity n :
  (n ≠ "" → mungePackageName n 0 "" = Some (translate (path.Clean n))) ∧
  (clean_path n → mungePackageName n 0 "" = Some (translate n)).
Proof.
  split.
  - intros Hn. by rewrite mungePackageName_no_strip_Clean, decide_False.
  - apply mungePackageName_no_strip_clean.
Qed.

Lemma mungePackageName_identity_witness :
  mungePackageName "a/b/c/d/e/f" 0 "" = Some "a.b.c.d.e.f".
Proof.
  refine (proj2 (mungePackageName_identity "a/b/c/d/e/f") _).
  right. vm_compute. repeat constructor; discriminate.
Defined.

(** C4 refuted as it is stated, for every name: an empty segment, a [.]
    segment and a trailing slash are removed, not translated. *)
Lemma mungePackageName_identity_counterexample :
  (mungePackageName "a//b" 0 "" = Some "a.b" ∧ translate "a//b" = "a..b") ∧
  (mungePackageName "a/./b" 0 "" = Some "a.b" ∧ translate "a/./b" = "a.-.b") ∧
  (mungePackageName "a/b/" 0 "" = Some "a.b" ∧ translate "a/b/" = "a.b.").
Proof. done. Qed.

(** C5. When the strip count is at least the number of segments of the
    name, [mungePackageName] returns a value (no panic): the empty string
    when there is no prefix, and otherwise the normalized prefix alone,
    that is the normalizer applied to the prefix by itself, which for a
    prefix in clean relative form is the prefix with its separators
    translated. ["a/b/c/d/e/f"] with strip 6 or 7 gives [""], and with
    prefix ["1/2/3"] and strip 6 gives ["1.2.3"]. *)
Theorem mungePackageName_strip_all name strip prefix :
  len (strings.Split name "/") ≤ strip →
  is_Some (mungePackageName name strip prefix) ∧
  mungePackageName name strip prefix = mungePackageName prefix 0 "" ∧
  (prefix = "" → mungePackageName name strip prefix = Some "") ∧
  (clean_path prefix →
   mungePackageName name strip prefix = Some (translate prefix)) ∧
  mungePackageName "a/b/c/d/e/f" 6 "" = Some "" ∧
  mungePackageName "a/b/c/d/e/f" 7 "" = Some "" ∧
  mungePackageName "a/b/c/d/e/f" 6 "1/2/3" = Some "1.2.3" ∧
  translate "1/2/3" = "1.2.3".
Proof.
  intros Hstrip.
  assert (mungePackageName name strip prefix = mungePackageName prefix 0 "") as Heq.
  { rewrite mungePackageName_no_strip_Clean.
    rewrite (mungePackageName_stripped _ _ _ "") by by apply stripPathElements_all.
    rewrite path_Join_pair.
    case_decide; [done|]. by rewrite Clean_trailing_slash. }
  rewrite Heq. split_and!; try done.
  - by intros ->.
  - apply mungePackageName_no_strip_clean.
Qed.

Lemma mungePackageName_strip_all_witness :
  mungePackageName "a/b/c/d/e/f" 9 "x.y/z/" = Some "x-y.z".
Proof.
  destruct (mungePackageName_strip_all "a/b/c/d/e/f" 9 "x.y/z/") as (_ & -> & _).
  - vm_compute. discriminate.
  - reflexivity.
Defined.

End normalizer_claims.

(** ** The suite builder *)

Section suite_builder.

Implicit Types (pkg : testjson.Package.t) (tc : testjson.TestCase.t).
Implicit Types (exec : testjson.Execution.t) (p : os.Process).
Implicit Types (jtc : JUnitTestCase.t) (cases : list JUnitTestCase.t).

Arguments mungePackageName : simpl never.
Arguments formatDurationAsSeconds : simpl never.

(** The normalizer panics on a negative strip count only. *)
Lemma stripPathElements_is_Some n strip :
  0 ≤ strip → is_Some (stripPathElements n strip).
Proof.
  intros Hstrip. unfold stripPathElements, slice_from.
  repeat case_decide; eauto; lia.
Qed.

Lemma mungePackageName_is_Some n strip prefix :
  0 ≤ strip → is_Some (mungePackageName n strip prefix).
Proof.
  intros Hstrip.
  destruct (stripPathElements_is_Some n strip Hstrip) as [rem Hrem].
  rewrite (mungePackageName_stripped _ _ _ _ Hrem). eauto.
Qed.

Lemma newJUnitTestCase_Some tc strip prefix jtc :
  newJUnitTestCase tc strip prefix = Some jtc ↔
  ∃ classname,
    mungePackageName (testjson.TestCase.Package tc) strip prefix = Some classname ∧
    jtc = JUnitTestCase.mk classname (testjson.TestCase.Test tc)
            (formatDurationAsSeconds (testjson.TestCase.Elapsed tc)) None None.
Proof.
  unfold newJUnitTestCase.
  destruct (mungePackageName _ strip prefix) as [classname|]; simpl.
  - split; [intros [= <-]; eauto|]. by intros (? & [= <-] & ->).
  - split; [done|]. by intros (? & [=] & _).
Qed.

Lemma newJUnitTestCase_is_Some tc strip prefix :
  0 ≤ strip → is_Some (newJUnitTestCase tc strip prefix).
Proof.
  intros Hstrip.
  destruct (mungePackageName_is_Some (testjson.TestCase.Package tc) strip prefix Hstrip)
    as [classname Hc].
  eexists. apply newJUnitTestCase_Some. eauto.
Qed.

(** The records built by the three loop bodies and for the driver failure. *)
Lemma failed_case_Some pkg strip prefix tc jtc :
  failed_case pkg strip prefix tc = Some jtc →
  is_failed_record pkg tc jtc ∧
  mungePackageName (testjson.TestCase.Package tc) strip prefix
    = Some (JUnitTestCase.Classname jtc).
Proof.
  unfold failed_case. destruct (newJUnitTestCase tc strip prefix) as [jtc0|] eqn:Hnew;
    [|done].
  apply newJUnitTestCase_Some in Hnew as (classname & Hc & ->).
  by intros [= <-].
Qed.

Lemma skipped_case_Some pkg strip prefix tc jtc :
  skipped_case pkg strip prefix tc = Some jtc →
  is_skipped_record pkg tc jtc ∧
  mungePackageName (testjson.TestCase.Package tc) strip prefix
    = Some (JUnitTestCase.Classname jtc).
Proof.
  unfold skipped_case. destruct (newJUnitTestCase tc strip prefix) as [jtc0|] eqn:Hnew;
    [|done].
  apply newJUnitTestCase_Some in Hnew as (classname & Hc & ->).
  by intros [= <-].
Qed.

Lemma passed_case_Some strip prefix tc jtc :
  passed_case strip prefix tc = Some jtc →
  is_passed_record tc jtc ∧
  mungePackageName (testjson.TestCase.Package tc) strip prefix
    = Some (JUnitTestCase.Classname jtc).
Proof.
  unfold passed_case. by intros (classname & Hc & ->)%newJUnitTestCase_Some.
Qed.

Lemma main_case_Some pkg strip prefix tc jtc :
  tc = TestMain_case →
  main_case pkg strip prefix tc = Some jtc →
  is_TestMain_record pkg tc jtc ∧
  mungePackageName (testjson.TestCase.Package tc) strip prefix
    = Some (JUnitTestCase.Classname jtc).
Proof.
  intros Htc. unfold main_case.
  destruct (newJUnitTestCase tc strip prefix) as [jtc0|] eqn:Hnew; [|done].
  apply newJUnitTestCase_Some in Hnew as (classname & Hc & ->).
  by intros [= <-].
Qed.

(** [packageTestCases] as four traversals, one per group. *)
Lemma packageTestCases_groups pkg strip prefix :
  packageTestCases pkg strip prefix =
    main ← mapM (main_case pkg strip prefix) (main_cases pkg);
    failed ← mapM (failed_case pkg strip prefix) (testjson.Package.Failed pkg);
    skipped ← mapM (skipped_case pkg strip prefix) (testjson.Package.Skipped pkg);
    passed ← mapM (passed_case strip prefix) (testjson.Package.Passed pkg);
    Some (main ++ failed ++ skipped ++ passed).
Proof.
  unfold packageTestCases, main_cases, main_case.
  destruct (testjson.Package.TestMainFailed pkg); [|done].
  simpl. by destruct (newJUnitTestCase TestMain_case strip prefix).
Qed.

Lemma packageTestCases_Some pkg strip prefix cases :
  packageTestCases pkg strip prefix = Some cases ↔
  ∃ main failed skipped passed,
    cases = main ++ failed ++ skipped ++ passed ∧
    Forall2 (λ tc jtc, main_case pkg strip prefix tc = Some jtc) (main_cases pkg) main ∧
    Forall2 (λ tc jtc, failed_case pkg strip prefix tc = Some jtc)
      (testjson.Package.Failed pkg) failed ∧
    Forall2 (λ tc jtc, skipped_case pkg strip prefix tc = Some jtc)
      (testjson.Package.Skipped pkg) skipped ∧
    Forall2 (λ tc jtc, passed_case strip prefix tc = Some jtc)
      (testjson.Package.Passed pkg) passed.
Proof.
  rewrite packageTestCases_groups. split.
  - intros H.
    destruct (mapM (main_case _ _ _) _) as [main|] eqn:Hmain; [|done].
    destruct (mapM (failed_case _ _ _) _) as [failed|] eqn:Hfailed; [|done].
    destruct (mapM (skipped_case _ _ _) _) as [skipped|] eqn:Hskipped; [|done].
    destruct (mapM (passed_case _ _) _) as [passed|] eqn:Hpassed; [|done].
    simplify_eq/=.
    exists main, failed, skipped, passed.
    by rewrite <- !mapM_Some.
  - intros (main & failed & skipped & passed & -> & Hm & Hf & Hs & Hp).
    apply mapM_Some in Hm, Hf, Hs, Hp. by rewrite Hm, Hf, Hs, Hp.
Qed.

Lemma packageTestCases_is_Some pkg strip prefix :
  0 ≤ strip → is_Some (packageTestCases pkg strip prefix).
Proof.
  intros Hstrip. rewrite packageTestCases_groups.
  assert (∀ (f : testjson.TestCase.t → option JUnitTestCase.t) l,
             (∀ tc, is_Some (f tc)) → is_Some (mapM f l)) as Htotal.
  { intros f l Hf. apply mapM_is_Some, Forall_forall. intros tc _. apply Hf. }
  assert (∀ tc, is_Some (newJUnitTestCase tc strip prefix)) as Hnew
    by (intros; by apply newJUnitTestCase_is_Some).
  destruct (Htotal (main_case pkg strip prefix) (main_cases pkg)) as [? ->].
  { intros tc. unfold main_case. by destruct (Hnew tc) as [? ->]. }
  destruct (Htotal (failed_case pkg strip prefix) (testjson.Package.Failed pkg))
    as [? ->].
  { intros tc. unfold failed_case. by destruct (Hnew tc) as [? ->]. }
  destruct (Htotal (skipped_case pkg strip prefix) (testjson.Package.Skipped pkg))
    as [? ->].
  { intros tc. unfold skipped_case. by destruct (Hnew tc) as [? ->]. }
  destruct (Htotal (passed_case strip prefix) (testjson.Package.Passed pkg))
    as [? ->]; [done|].
  by eexists.
Qed.

(** What [generate] puts in the suite record of one package. *)
Lemma generate_suite_Some p version exec strip prefix pkgname suite :
  generate_suite p version exec strip prefix pkgname = Some suite →
  let pkg := testjson.Execution.Package exec pkgname in
  (if decide (os.Getenv p "GOTESTSUM_SUITE" ≠ "")
   then Some (os.Getenv p "GOTESTSUM_SUITE")
   else mungePackageName pkgname strip prefix) = Some (JUnitTestSuite.Name suite) ∧
  JUnitTestSuite.Tests suite = testjson.Package.Total pkg ∧
  JUnitTestSuite.Failures suite = len (testjson.Package.Failed pkg) ∧
  JUnitTestSuite.Time suite = formatDurationAsSeconds (testjson.Package.Elapsed pkg) ∧
  JUnitTestSuite.Properties suite = packageProperties version ∧
  packageTestCases pkg strip prefix = Some (JUnitTestSuite.TestCases suite).
Proof.
  unfold generate_suite. cbv zeta.
  destruct (if decide (os.Getenv p "GOTESTSUM_SUITE" ≠ "") then _ else _)
    as [name|]; [|done].
  destruct (packageTestCases _ strip prefix) as [cases|]; [|done].
  by intros [= <-].
Qed.

Lemma generate_suite_is_Some p version exec strip prefix pkgname :
  0 ≤ strip → is_Some (generate_suite p version exec strip prefix pkgname).
Proof.
  intros Hstrip. unfold generate_suite. cbv zeta.
  destruct (packageTestCases_is_Some (testjson.Execution.Package exec pkgname)
              strip prefix Hstrip) as [cases ->].
  destruct (mungePackageName_is_Some pkgname strip prefix Hstrip) as [name ->].
  by case_decide.
Qed.

(** [generate] builds one suite record per package, in the order of the
    package names. *)
Lemma generate_Some p exec strip prefix suites :
  generate p exec strip prefix = Some suites ↔
  Forall2 (λ pkgname suite,
             generate_suite p (goVersion p) exec strip prefix pkgname = Some suite)
    (testjson.Execution.Packages exec) (JUnitTestSuites.Suites suites).
Proof.
  unfold generate. cbv zeta. rewrite <- mapM_Some.
  destruct (mapM _ _) as [l|]; simpl; destruct suites as [l']; simpl.
  - split; by intros [= ->].
  - done.
Qed.

(** [generate] returns for every strip count that is not negative. *)
Lemma generate_is_Some p exec strip prefix :
  0 ≤ strip → is_Some (generate p exec strip prefix).
Proof.
  intros Hstrip. unfold generate. cbv zeta.
  destruct (mapM _ _) as [l|] eqn:Hl; [by eexists|].
  apply mapM_None, Exists_exists in Hl as (pkgname & _ & Hnone).
  destruct (generate_suite_is_Some p (goVersion p) exec strip prefix pkgname Hstrip)
    as [? Hsome].
  congruence.
Qed.

(** A property of the suite record of every package holds of the suite
    records of [generate]. *)
Lemma generate_Forall2 (P : string → JUnitTestSuite.t → Prop) p exec strip prefix :
  (∀ pkgname suite,
      generate_suite p (goVersion p) exec strip prefix pkgname = Some suite →
      P pkgname suite) →
  ∀ suites, generate p exec strip prefix = Some suites →
    Forall2 P (testjson.Execution.Packages exec) (JUnitTestSuites.Suites suites).
Proof.
  intros HP suites Hgen%generate_Some.
  eapply Forall2_impl; [done|]. apply HP.
Qed.

Lemma main_cases_Forall2 pkg strip prefix main :
  Forall2 (λ tc jtc, main_case pkg strip prefix tc = Some jtc) (main_cases pkg) main →
  Forall2 (λ tc jtc,
             is_TestMain_record pkg tc jtc ∧
             mungePackageName (testjson.TestCase.Package tc) strip prefix
               = Some (JUnitTestCase.Classname jtc))
    (main_cases pkg) main.
Proof.
  intros Hm. apply Forall2_same_length_lookup.
  split; [by eapply Forall2_length|].
  intros i tc jtc Htc Hjtc.
  apply main_case_Some.
  - unfold main_cases in Htc. destruct (testjson.Package.TestMainFailed pkg); [|done].
    apply list_elem_of_lookup_2, list_elem_of_singleton in Htc. done.
  - by eapply (Forall2_lookup_lr _ _ _ i) in Hm.
Qed.

(** The case records of a package are in the order of the groups. *)
Lemma packageTestCases_in_order pkg strip prefix cases :
  packageTestCases pkg strip prefix = Some cases → cases_in_order pkg cases.
Proof.
  intros (main & failed & skipped & passed & -> & Hm & Hf & Hs & Hp)
    %packageTestCases_Some.
  exists main, failed, skipped, passed. split_and!; [done|..].
  - eapply Forall2_impl; [by apply main_cases_Forall2|]. by intros tc jtc [? ?].
  - eapply Forall2_impl; [done|]. by intros tc jtc [? ?]%failed_case_Some.
  - eapply Forall2_impl; [done|]. by intros tc jtc [? ?]%skipped_case_Some.
  - eapply Forall2_impl; [done|]. by intros tc jtc [? ?]%passed_case_Some.
Qed.

(** Every case record has the class name that the normalizer gives for
    the package name of its source test case. *)
Lemma packageTestCases_Classname pkg strip prefix cases :
  packageTestCases pkg strip prefix = Some cases →
  Forall2 (λ tc jtc,
             mungePackageName (testjson.TestCase.Package tc) strip prefix
               = Some (JUnitTestCase.Classname jtc))
    (source_cases pkg) cases.
Proof.
  intros (main & failed & skipped & passed & -> & Hm & Hf & Hs & Hp)
    %packageTestCases_Some.
  unfold source_cases. repeat apply Forall2_app.
  - eapply Forall2_impl; [by apply main_cases_Forall2|]. by intros tc jtc [? ?].
  - eapply Forall2_impl; [done|]. by intros tc jtc [? ?]%failed_case_Some.
  - eapply Forall2_impl; [done|]. by intros tc jtc [? ?]%skipped_case_Some.
  - eapply Forall2_impl; [done|]. by intros tc jtc [? ?]%passed_case_Some.
Qed.

Lemma len_app {A} (l k : list A) : len (l ++ k) = len l + len k.
Proof. unfold len. rewrite length_app. lia. Qed.

Lemma len_main_cases pkg :
  len (main_cases pkg) = if testjson.Package.TestMainFailed pkg then 1 else 0.
Proof. unfold main_cases. by destruct (testjson.Package.TestMainFailed pkg). Qed.

(** The number of case records of a package. *)
Lemma cases_in_order_len pkg cases :
  cases_in_order pkg cases →
  len cases =
    (if testjson.Package.TestMainFailed pkg then 1 else 0)
    + len (testjson.Package.Failed pkg)
    + len (testjson.Package.Skipped pkg)
    + len (testjson.Package.Passed pkg).
Proof.
  intros (main & failed & skipped & passed & -> & Hm & Hf & Hs & Hp).
  rewrite !len_app, <- len_main_cases. unfold len.
  apply Forall2_length in Hm, Hf, Hs, Hp. lia.
Qed.

Lemma failure_records_all {A} (P : A → JUnitTestCase.t → Prop) l cases :
  (∀ x jtc, P x jtc → is_Some (JUnitTestCase.Failure jtc)) →
  Forall2 P l cases → failure_records cases = len l.
Proof.
  intros HP Hall. unfold failure_records, len.
  induction Hall as [|x jtc l cases Hx _ IH]; [done|].
  rewrite filter_cons_True by by eapply HP. simpl. lia.
Qed.

Lemma failure_records_none {A} (P : A → JUnitTestCase.t → Prop) l cases :
  (∀ x jtc, P x jtc → JUnitTestCase.Failure jtc = None) →
  Forall2 P l cases → failure_records cases = 0.
Proof.
  intros HP Hall. unfold failure_records, len.
  induction Hall as [|x jtc l cases Hx _ IH]; [done|].
  rewrite filter_cons_False; [done|].
  rewrite (HP _ _ Hx). by intros [? [=]].
Qed.

Lemma failure_records_app cases1 cases2 :
  failure_records (cases1 ++ cases2) = failure_records cases1 + failure_records cases2.
Proof. unfold failure_records. by rewrite filter_app, len_app. Qed.

(** The number of case records of a package with a failure annotation. *)
Lemma cases_in_order_failure_records pkg cases :
  cases_in_order pkg cases →
  failure_records cases =
    len (testjson.Package.Failed pkg)
    + (if testjson.Package.TestMainFailed pkg then 1 else 0).
Proof.
  intros (main & failed & skipped & passed & -> & Hm & Hf & Hs & Hp).
  rewrite !failure_records_app, <- len_main_cases.
  rewrite (failure_records_all (is_TestMain_record pkg) (main_cases pkg) main);
    [|by intros tc jtc (_ & _ & _ & ->)|done].
  rewrite (failure_records_all (is_failed_record pkg) (testjson.Package.Failed pkg) failed);
    [|by intros tc jtc (_ & _ & ->)|done].
  rewrite (failure_records_none (is_skipped_record pkg) (testjson.Package.Skipped pkg) skipped);
    [|by intros tc jtc (_ & _ & ->)|done].
  rewrite (failure_records_none is_passed_record (testjson.Package.Passed pkg) passed);
    [|by intros tc jtc (_ & _ & ->)|done].
  lia.
Qed.

End suite_builder.

(** ** The suite records *)

Section suite_claims.

Implicit Types (p : os.Process) (exec : testjson.Execution.t).

(** C1 (as amended). [generate] returns for every strip count that is not
    negative, and in the suite record of every package the failure count
    is the size of the failed-case partition, whether the driver-failure
    flag of the package is set or not. The synthetic driver-failure case
    is not counted: the case records with a failure annotation are one
    more than the failure count when the flag is set. *)
Theorem generate_Failures p exec strip prefix :
  (0 ≤ strip → is_Some (generate p exec strip prefix)) ∧
  ∀ suites, generate p exec strip prefix = Some suites →
    Forall2 (λ pkgname suite,
               let pkg := testjson.Execution.Package exec pkgname in
               JUnitTestSuite.Failures suite = len (testjson.Package.Failed pkg) ∧
               failure_records (JUnitTestSuite.TestCases suite) =
                 JUnitTestSuite.Failures suite
                 + (if testjson.Package.TestMainFailed pkg then 1 else 0))
      (testjson.Execution.Packages exec) (JUnitTestSuites.Suites suites).
Proof.
  split; [apply generate_is_Some|].
  apply generate_Forall2. intros pkgname suite Hsuite.
  apply generate_suite_Some in Hsuite as (_ & _ & Hfailures & _ & _ & Hcases).
  cbv zeta. rewrite Hfailures. split; [done|].
  by apply cases_in_order_failure_records, (packageTestCases_in_order _ strip prefix).
Qed.

Lemma generate_Failures_witness :
  ∃ suites,
    generate bare_process example_exec 1 "ci" = Some suites ∧
    map JUnitTestSuite.Failures (JUnitTestSuites.Suites suites) = [0; 1] ∧
    map (λ suite, failure_records (JUnitTestSuite.TestCases suite))
      (JUnitTestSuites.Suites suites) = [1; 1].
Proof.
  destruct (generate_Failures bare_process example_exec 1 "ci") as [Hsome Hall].
  destruct Hsome as [suites Hsuites]; [lia|].
  specialize (Hall suites Hsuites).
  exists suites. split; [done|].
  vm_compute in Hsuites. by injection Hsuites as <-.
Defined.

(** C1 refuted as it is stated: the package [badmain] has the
    driver-failure flag set and no failed case, and the failure count of
    its suite record is 0, not 1, next to one case record with a failure
    annotation. *)
Lemma generate_Failures_counterexample :
  testjson.Package.TestMainFailed badmain = true ∧
  len (testjson.Package.Failed badmain) + 1 = 1 ∧
  (λ suites,
     map (λ suite, (JUnitTestSuite.Failures suite,
                    failure_records (JUnitTestSuite.TestCases suite)))
       (JUnitTestSuites.Suites suites))
    <$> generate bare_process badmain_exec 0 "" = Some [(0, 1)].
Proof. by vm_compute. Qed.

(** C2 (as amended). In the suite record of every package the tests
    attribute is the total count of the package aggregate, and the number
    of case records is the sum of the sizes of the failed, skipped and
    passed partitions, plus one when the driver-failure flag is set. The
    two agree exactly when the total is that sum. *)
Theorem generate_Tests p exec strip prefix :
  (0 ≤ strip → is_Some (generate p exec strip prefix)) ∧
  ∀ suites, generate p exec strip prefix = Some suites →
    Forall2 (λ pkgname suite,
               let pkg := testjson.Execution.Package exec pkgname in
               JUnitTestSuite.Tests suite = testjson.Package.Total pkg ∧
               len (JUnitTestSuite.TestCases suite) =
                 (if testjson.Package.TestMainFailed pkg then 1 else 0)
                 + len (testjson.Package.Failed pkg)
                 + len (testjson.Package.Skipped pkg)
                 + len (testjson.Package.Passed pkg))
      (testjson.Execution.Packages exec) (JUnitTestSuites.Suites suites).
Proof.
  split; [apply generate_is_Some|].
  apply generate_Forall2. intros pkgname suite Hsuite.
  apply generate_suite_Some in Hsuite as (_ & Htests & _ & _ & _ & Hcases).
  split; [done|].
  by apply cases_in_order_len, (packageTestCases_in_order _ strip prefix).
Qed.

Lemma generate_Tests_witness :
  ∃ suites,
    generate bare_process example_exec 0 "" = Some suites ∧
    map JUnitTestSuite.Tests (JUnitTestSuites.Suites suites) = [0; 4] ∧
    map (λ suite, len (JUnitTestSuite.TestCases suite))
      (JUnitTestSuites.Suites suites) = [1; 4].
Proof.
  destruct (generate_Tests bare_process example_exec 0 "") as [Hsome Hall].
  destruct Hsome as [suites Hsuites]; [lia|].
  specialize (Hall suites Hsuites).
  exists suites. split; [done|].
  vm_compute in Hsuites. by injection Hsuites as <-.
Defined.

(** C2 refuted as it is stated: the suite record of [badmain] has the
    tests attribute 0 and one case record, the synthetic driver-failure
    case. *)
Lemma generate_Tests_counterexample :
  (λ suites,
     map (λ suite, (JUnitTestSuite.Tests suite,
                    len (JUnitTestSuite.TestCases suite)))
       (JUnitTestSuites.Suites suites))
    <$> generate bare_process badmain_exec 0 "" = Some [(0, 1)].
Proof. by vm_compute. Qed.

(** C8. In the suite record of every package the case records are, in
    this order: the synthetic driver-failure case named [TestMain] if the
    driver-failure flag is set, the records of the failed cases, of the
    skipped cases and of the passed cases, each group in the order of its
    partition in the execution model. *)
Theorem generate_TestCases_order p exec strip prefix :
  (0 ≤ strip → is_Some (generate p exec strip prefix)) ∧
  ∀ suites, generate p exec strip prefix = Some suites →
    Forall2 (λ pkgname suite,
               cases_in_order (testjson.Execution.Package exec pkgname)
                 (JUnitTestSuite.TestCases suite))
      (testjson.Execution.Packages exec) (JUnitTestSuites.Suites suites).
Proof.
  split; [apply generate_is_Some|].
  apply generate_Forall2. intros pkgname suite Hsuite.
  apply generate_suite_Some in Hsuite as (_ & _ & _ & _ & _ & Hcases).
  by apply (packageTestCases_in_order _ strip prefix).
Qed.

Lemma generate_TestCases_order_witness :
  ∃ suites,
    generate bare_process example_exec 2 "" = Some suites ∧
    map (λ suite, map JUnitTestCase.Name (JUnitTestSuite.TestCases suite))
      (JUnitTestSuites.Suites suites)
    = [["TestMain"];
       ["TestFailed"; "TestSkipped"; "TestPassed"; "TestPassedToo"]] ∧
    Forall2 (λ pkgname suite,
               cases_in_order (testjson.Execution.Package example_exec pkgname)
                 (JUnitTestSuite.TestCases suite))
      (testjson.Execution.Packages example_exec) (JUnitTestSuites.Suites suites).
Proof.
  destruct (generate_TestCases_order bare_process example_exec 2 "") as [Hsome Hall].
  destruct Hsome as [suites Hsuites]; [lia|].
  specialize (Hall suites Hsuites).
  exists suites. split_and!; [done| |done].
  vm_compute in Hsuites. by injection Hsuites as <-.
Defined.

(** C6. In the suite record of every package the name attribute is the
    value of the environment variable [GOTESTSUM_SUITE], as it is, when
    the variable is set to a non-empty value, whatever the strip count and
    the prefix are; when it is unset or empty, the name is the normalizer
    applied to the package name. *)
Theorem generate_Name p exec strip prefix :
  (0 ≤ strip → is_Some (generate p exec strip prefix)) ∧
  ∀ suites, generate p exec strip prefix = Some suites →
    Forall2 (λ pkgname suite,
               (∀ x, os.LookupEnv p "GOTESTSUM_SUITE" = Some x → x ≠ "" →
                     JUnitTestSuite.Name suite = x) ∧
               (os.LookupEnv p "GOTESTSUM_SUITE" = None ∨
                os.LookupEnv p "GOTESTSUM_SUITE" = Some "" →
                mungePackageName pkgname strip prefix
                  = Some (JUnitTestSuite.Name suite)))
      (testjson.Execution.Packages exec) (JUnitTestSuites.Suites suites).
Proof.
  split; [apply generate_is_Some|].
  apply generate_Forall2. intros pkgname suite Hsuite.
  apply generate_suite_Some in Hsuite as (Hname & _).
  unfold os.Getenv in Hname. split.
  - intros x Hx Hne. rewrite Hx in Hname. simpl in Hname.
    rewrite decide_True in Hname by done. by injection Hname.
  - intros [Hx|Hx]; rewrite Hx in Hname; simpl in Hname;
      first [done | by case_decide].
Qed.

Lemma generate_Name_witness :
  ∃ suites suites',
    generate (os.Setenv bare_process "GOTESTSUM_SUITE" "nightly/unit")
      example_exec 2 "ci" = Some suites ∧
    map JUnitTestSuite.Name (JUnitTestSuites.Suites suites)
      = ["nightly/unit"; "nightly/unit"] ∧
    generate (os.Setenv bare_process "GOTESTSUM_SUITE" "")
      example_exec 2 "ci" = Some suites' ∧
    map JUnitTestSuite.Name (JUnitTestSuites.Suites suites')
      = ["ci.badmain"; "ci.good"].
Proof.
  destruct (generate_Name (os.Setenv bare_process "GOTESTSUM_SUITE" "nightly/unit")
              example_exec 2 "ci") as [[suites Hsuites] Hall]; [lia|].
  destruct (generate_Name (os.Setenv bare_process "GOTESTSUM_SUITE" "")
              example_exec 2 "ci") as [[suites' Hsuites'] Hall']; [lia|].
  specialize (Hall suites Hsuites). specialize (Hall' suites' Hsuites').
  exists suites, suites'. split_and!; [done| |done|].
  - vm_compute in Hsuites. by injection Hsuites as <-.
  - vm_compute in Hsuites'. by injection Hsuites' as <-.
Defined.

Lemma goVersion_Setenv p key value :
  key ≠ "GOVERSION" → goVersion (os.Setenv p key value) = goVersion p.
Proof.
  intros Hkey. unfold goVersion, goVersion_run, os.LookupEnv, os.Setenv. simpl.
  by rewrite lookup_insert_ne.
Qed.

(** C9. Setting the environment variable [GOTESTSUM_SUITE] changes the
    name attribute of the suite records only: the case records and the
    other attributes of every suite record are the same with and without
    it, and the class name of every case record is the normalizer applied,
    with the given strip count and prefix, to the package name of its own
    test case. *)
Theorem generate_Classname_frame p exec strip prefix x :
  (0 ≤ strip →
   is_Some (generate p exec strip prefix) ∧
   is_Some (generate (os.Setenv p "GOTESTSUM_SUITE" x) exec strip prefix)) ∧
  ∀ suites suites',
    generate p exec strip prefix = Some suites →
    generate (os.Setenv p "GOTESTSUM_SUITE" x) exec strip prefix = Some suites' →
    Forall2 (λ suite suite',
               JUnitTestSuite.TestCases suite' = JUnitTestSuite.TestCases suite ∧
               JUnitTestSuite.Tests suite' = JUnitTestSuite.Tests suite ∧
               JUnitTestSuite.Failures suite' = JUnitTestSuite.Failures suite ∧
               JUnitTestSuite.Time suite' = JUnitTestSuite.Time suite ∧
               JUnitTestSuite.Properties suite' = JUnitTestSuite.Properties suite)
      (JUnitTestSuites.Suites suites) (JUnitTestSuites.Suites suites') ∧
    Forall2 (λ pkgname suite',
               Forall2 (λ tc jtc,
                          mungePackageName (testjson.TestCase.Package tc) strip prefix
                            = Some (JUnitTestCase.Classname jtc))
                 (source_cases (testjson.Execution.Package exec pkgname))
                 (JUnitTestSuite.TestCases suite'))
      (testjson.Execution.Packages exec) (JUnitTestSuites.Suites suites').
Proof.
  split; [intros Hstrip; split; by apply generate_is_Some|].
  intros suites suites' Hgen Hgen'. split.
  - apply generate_Some in Hgen, Hgen'.
    rewrite goVersion_Setenv in Hgen' by done.
    apply Forall2_same_length_lookup. split.
    { apply Forall2_length in Hgen, Hgen'. congruence. }
    intros i suite suite' Hi Hi'.
    destruct (Forall2_lookup_r _ _ _ _ _ Hgen Hi) as (pkgname & Hpkg & Hsuite).
    destruct (Forall2_lookup_r _ _ _ _ _ Hgen' Hi') as (pkgname' & Hpkg' & Hsuite').
    assert (pkgname' = pkgname) as -> by congruence.
    apply generate_suite_Some in Hsuite as (_ & -> & -> & -> & -> & Hcases).
    apply generate_suite_Some in Hsuite' as (_ & -> & -> & -> & -> & Hcases').
    split_and!; try done. congruence.
  - revert suites' Hgen'. apply generate_Forall2. intros pkgname suite' Hsuite'.
    apply generate_suite_Some in Hsuite' as (_ & _ & _ & _ & _ & Hcases).
    by apply packageTestCases_Classname.
Qed.

Lemma generate_Classname_frame_witness :
  ∃ suites suites',
    generate bare_process example_exec 1 "ci" = Some suites ∧
    generate (os.Setenv bare_process "GOTESTSUM_SUITE" "nightly")
      example_exec 1 "ci" = Some suites' ∧
    map JUnitTestSuite.Name (JUnitTestSuites.Suites suites)
      = ["ci.mod.badmain"; "ci.mod.good"] ∧
    map JUnitTestSuite.Name (JUnitTestSuites.Suites suites')
      = ["nightly"; "nightly"] ∧
    map (λ suite, map JUnitTestCase.Classname (JUnitTestSuite.TestCases suite))
      (JUnitTestSuites.Suites suites')
    = [["ci"]; ["ci.mod.good"; "ci.mod.good"; "ci.mod.good"; "ci.mod.good"]] ∧
    map JUnitTestSuite.TestCases (JUnitTestSuites.Suites suites')
    = map JUnitTestSuite.TestCases (JUnitTestSuites.Suites suites).
Proof.
  destruct (generate_Classname_frame bare_process example_exec 1 "ci" "nightly")
    as [[[suites Hsuites] [suites' Hsuites']] Hall]; [lia|].
  specialize (Hall suites suites' Hsuites Hsuites').
  exists suites, suites'. split_and!; [done|done|..];
    vm_compute in Hsuites, Hsuites';
    injection Hsuites as <-; by injection Hsuites' as <-.
Defined.

End suite_claims.

(** ** The toolchain version resolver *)

Section version_claims.

(** C7. [goVersion] returns the value of the environment variable
    [GOVERSION] as it is whenever the variable is set, to any value, the
    empty one included. When the variable is unset and running
    [go version] fails, whatever the error, it logs a warning and returns
    ["unknown"]; its result is a string in every case, never an error. *)
Theorem goVersion_override_or_unknown (p : os.Process) :
  (∀ version, os.LookupEnv p "GOVERSION" = Some version → goVersion p = version) ∧
  (os.LookupEnv p "GOVERSION" = None →
   ∀ err, os.go_version_Output p = inl err →
     goVersion p = "unknown" ∧
     (goVersion_run p).1 =
       [logrus.mk logrus.DebugLevel None "exec: go version";
        logrus.mk logrus.WarnLevel (Some err)
          "failed to lookup go version for junit xml"]).
Proof.
  unfold goVersion, goVersion_run. split.
  - by intros version ->.
  - by intros -> err ->.
Qed.

Lemma goVersion_override_or_unknown_witness :
  goVersion (os.Setenv bare_process "GOVERSION" "go7.7.7") = "go7.7.7" ∧
  goVersion (os.Setenv bare_process "GOVERSION" "") = "" ∧
  goVersion bare_process = "unknown".
Proof.
  split_and!.
  - by apply (proj1 (goVersion_override_or_unknown _)).
  - by apply (proj1 (goVersion_override_or_unknown _)).
  - by eapply (proj2 (goVersion_override_or_unknown bare_process)).
Defined.

End version_claims.

(** ** The writer *)

Section writer_claims.

Context {W : Type} `{!io.Writer W}.
Variable MarshalIndent : xml.MarshalIndent_t.

(** C10. If encoding the suite tree fails, [write] returns the error of
    the encoder and the sink is as it was before the call: no write, of
    the XML declaration or of anything else, has been made. [Write] then
    returns that error wrapped, with the sink unchanged as well. *)
Theorem write_marshal_error (out : W) (suites : JUnitTestSuites.t) (err : error) :
  MarshalIndent suites "" (strings.byte_string [9]) = inl err →
  write MarshalIndent out suites = (out, Some err) ∧
  ∀ p exec strip prefix,
    generate p exec strip prefix = Some suites →
    Write MarshalIndent p out exec strip prefix
      = Some (out, Some (withMessage err "failed to write JUnit XML")).
Proof.
  intros Herr.
  assert (write MarshalIndent out suites = (out, Some err)) as Hwrite
    by (unfold write; by rewrite Herr).
  split; [done|].
  intros p exec strip prefix Hgen. unfold Write. rewrite Hgen. simpl.
  by rewrite Hwrite.
Qed.

(** When the encoder succeeds the XML declaration is the first thing
    written. *)
Lemma write_marshal_ok (out : W) (suites : JUnitTestSuites.t) (doc : string) :
  MarshalIndent suites "" (strings.byte_string [9]) = inr doc →
  write MarshalIndent out suites =
    let '(out, _, err) := io.Writer_Write out xml.Header in
    match err with
    | Some err => (out, Some err)
    | None => let '(out, _, err) := io.Writer_Write out doc in (out, err)
    end.
Proof. intros Hdoc. unfold write. by rewrite Hdoc. Qed.

End writer_claims.

Lemma write_marshal_error_witness :
  write failing_MarshalIndent "already in the buffer" (JUnitTestSuites.mk [])
    = ("already in the buffer", Some (errorString "xml: unsupported type")) ∧
  Write failing_MarshalIndent bare_process "already in the buffer" example_exec 0 ""
    = Some ("already in the buffer",
            Some (withMessage (errorString "xml: unsupported type")
                    "failed to write JUnit XML")).
Proof.
  split.
  - by apply (write_marshal_error failing_MarshalIndent).
  - destruct (generate_is_Some bare_process example_exec 0 "") as [suites Hsuites];
      [lia|].
    by apply (write_marshal_error failing_MarshalIndent _ suites).
Defined.

(** With a buffer for a sink and an encoder that succeeds, the document
    follows the declaration. *)
Lemma Write_buffer_ok :
  Write fixed_MarshalIndent bare_process "" example_exec 0 ""
    = Some (xml.Header +:+ "<testsuites></testsuites>", None).
Proof. by vm_compute. Qed.

(** * Further properties *)

(** ** The normalizer: panics, separators and composition *)

Section normalizer_more.

Lemma stripPathElements_None name strip :
  stripPathElements name strip = None ↔ strip < 0.
Proof.
  split.
  - intros Hnone. destruct (decide (0 ≤ strip)) as [Hpos|]; [|lia].
    destruct (stripPathElements_is_Some name strip Hpos) as [? ?]. congruence.
  - intros Hneg. unfold stripPathElements, slice_from.
    pose proof (len_Split_pos name).
    rewrite decide_False by lia. rewrite decide_False by lia.
    by rewrite decide_False by lia.
Qed.

(** X1. The normalizer panics exactly on a negative strip count, whatever
    the name and the prefix are. *)
Theorem mungePackageName_panics_iff_negative name strip prefix :
  mungePackageName name strip prefix = None ↔ strip < 0.
Proof.
  rewrite <- (stripPathElements_None name). unfold mungePackageName.
  destruct (stripPathElements name strip); simpl; split; done.
Qed.

Lemma Replace_not_old s old new :
  old ≠ new → old ∉ bytes (strings.Replace s old new).
Proof.
  intros Hne. induction s as [|c s IH]; simpl.
  - apply not_elem_of_nil.
  - apply not_elem_of_cons. split; [|done].
    destruct (Ascii.eqb_spec c old); congruence.
Qed.

(** X2. No result of the normalizer holds a slash: every separator that
    is left after the cleaning has become a dot. *)
Theorem mungePackageName_no_slash name strip prefix result :
  mungePackageName name strip prefix = Some result →
  "/"%char ∉ bytes result.
Proof.
  unfold mungePackageName.
  destruct (stripPathElements name strip) as [rem|]; [|done].
  simpl. intros [= <-]. by apply Replace_not_old.
Qed.

Lemma mungePackageName_no_slash_witness :
  "/"%char ∉ bytes "ci-example.mod.good".
Proof.
  apply (mungePackageName_no_slash "github.com/mod/good" 1 "ci.example").
  by vm_compute.
Defined.

(** The translation works segment by segment: the dots of each segment
    become hyphens and the segments are joined by dots. *)
Lemma translate_Split s :
  translate s = strings.Join (map hyphenate (strings.Split s "/")) ".".
Proof.
  induction s as [|c s IH]; [done|].
  rewrite Split_cons. pose proof (Split_not_nil s) as Hnil.
  change (translate (String c s)) with
    (String (if Ascii.eqb (if Ascii.eqb c "." then "-"%char else c) "/"
             then "."%char
             else if Ascii.eqb c "." then "-"%char else c)
       (translate s)).
  destruct (Ascii.eqb_spec c "/") as [->|Hc].
  - destruct (strings.Split s "/") as [|e rest]; [done|].
    rewrite IH. done.
  - destruct (strings.Split s "/") as [|e rest]; [done|].
    rewrite IH.
    assert ((if Ascii.eqb (if Ascii.eqb c "." then "-"%char else c) "/"
             then "."%char
             else if Ascii.eqb c "." then "-"%char else c)
            = if Ascii.eqb c "." then "-"%char else c) as ->.
    { destruct (Ascii.eqb_spec c ".") as [->|]; [done|].
      by destruct (Ascii.eqb_spec c "/"). }
    by destruct rest.
Qed.

(** What is left of a clean name after stripping, as a list of segments. *)
Lemma stripPathElements_clean_drop name strip :
  clean_path name → 0 ≤ strip →
  stripPathElements name strip =
    Some (strings.Join (drop (Z.to_nat strip) (strings.Split name "/")) "/") ∧
  clean_path (strings.Join (drop (Z.to_nat strip) (strings.Split name "/")) "/").
Proof.
  intros Hname Hstrip.
  destruct (stripPathElements_clean name strip Hname Hstrip)
    as (rem & Hrem & Hclean & Hjoin).
  assert (rem = strings.Join (drop (Z.to_nat strip) (strings.Split name "/")) "/")
    as <-; [|done].
  rewrite Hjoin. case_decide; [|done].
  rewrite drop_ge; [done|]. unfold len in *. lia.
Qed.

(** The segments of the rest of a name are the rest of its segments,
    unless nothing is left. *)
Lemma Split_Join_drop k s :
  drop k (strings.Split s "/") ≠ [] →
  strings.Split (strings.Join (drop k (strings.Split s "/")) "/") "/"
  = drop k (strings.Split s "/").
Proof.
  intros Hne. destruct (Split_drop k s) as [?|[s' Hs']]; [done|].
  by rewrite <- Hs', Join_Split.
Qed.

(** X3. For a name in clean relative form and no prefix, the result of the
    normalizer is the segments that remain after the first [strip], each
    with its dots turned into hyphens, joined by dots: one level of the
    dotted hierarchy for each remaining path segment, as for
    [github.com/foo/bar], which becomes [github-com.foo.bar]. *)
Theorem mungePackageName_segments name strip :
  clean_path name → 0 ≤ strip →
  mungePackageName name strip "" =
    Some (strings.Join
            (map hyphenate (drop (Z.to_nat strip) (strings.Split name "/"))) ".").
Proof.
  intros Hname Hstrip.
  destruct (stripPathElements_clean_drop name strip Hname Hstrip) as [Hrem Hclean].
  rewrite (mungePackageName_stripped _ _ _ _ Hrem), path_Join_clean by (done || by left).
  rewrite decide_True by done. f_equal.
  destruct (decide (drop (Z.to_nat strip) (strings.Split name "/") = [])) as [->|Hne];
    [done|].
  by rewrite translate_Split, Split_Join_drop.
Qed.

Lemma mungePackageName_segments_witness :
  mungePackageName "github.com/foo/bar" 0 "" = Some "github-com.foo.bar" ∧
  mungePackageName "github.com/foo/bar.v2" 1 "" = Some "foo.bar-v2".
Proof.
  split.
  - refine (mungePackageName_segments "github.com/foo/bar" 0 _ _); [|lia].
    right. vm_compute. repeat constructor; discriminate.
  - refine (mungePackageName_segments "github.com/foo/bar.v2" 1 _ _); [|lia].
    right. vm_compute. repeat constructor; discriminate.
Defined.



Lemma Replace_app s t old new :
  strings.Replace (s +:+ t) old new
  = strings.Replace s old new +:+ strings.Replace t old new.
Proof. induction s as [|c s IH]; [done|]. simpl. by rewrite IH. Qed.

Lemma translate_app s t :
  translate (s +:+ "/" +:+ t) = translate s +:+ "." +:+ translate t.
Proof. unfold translate. by rewrite !Replace_app. Qed.

Lemma translate_nonempty s : s ≠ "" → translate s ≠ "".
Proof. by destruct s. Qed.

(** X5. On inputs in clean relative form the prefix is normalized on its
    own and put in front of the normalized name with a dot between them;
    when one of the two is empty the result is the other one. *)
Theorem mungePackageName_prefix name strip prefix :
  clean_path name → clean_path prefix → 0 ≤ strip →
  ∃ front rest,
    mungePackageName prefix 0 "" = Some front ∧
    mungePackageName name strip "" = Some rest ∧
    mungePackageName name strip prefix =
      Some (if decide (front = "") then rest
            else if decide (rest = "") then front
            else front +:+ "." +:+ rest).
Proof.
  intros Hname Hprefix Hstrip.
  destruct (stripPathElements_clean name strip Hname Hstrip)
    as (rem & Hrem & Hclean & _).
  exists (translate prefix), (translate rem). split_and!.
  - by apply mungePackageName_no_strip_clean.
  - rewrite (mungePackageName_stripped _ _ _ _ Hrem), path_Join_clean
      by (done || by left).
    by rewrite decide_True.
  - rewrite (mungePackageName_stripped _ _ _ _ Hrem), path_Join_clean by done.
    f_equal. destruct (decide (prefix = "")) as [->|Hp].
    { by rewrite decide_True. }
    rewrite (decide_False (P := translate prefix = ""))
      by by apply translate_nonempty.
    destruct (decide (rem = "")) as [->|Hr].
    { by rewrite decide_True. }
    rewrite (decide_False (P := translate rem = ""))
      by by apply translate_nonempty.
    apply translate_app.
Qed.

Lemma mungePackageName_prefix_witness :
  mungePackageName "github.com/foo/bar" 1 "ci/unit.fast" = Some "ci.unit-fast.foo.bar".
Proof.
  destruct (mungePackageName_prefix "github.com/foo/bar" 1 "ci/unit.fast")
    as (front & rest & Hfront & Hrest & ->); [| |lia|].
  - right. vm_compute. repeat constructor; discriminate.
  - right. vm_compute. repeat constructor; discriminate.
  - vm_compute in Hfront, Hrest. by injection Hfront as <-; injection Hrest as <-.
Defined.

End normalizer_more.

(** ** The suite builder: panics and invariants of the records *)

Section suite_more.

Implicit Types (pkg : testjson.Package.t) (tc : testjson.TestCase.t).
Implicit Types (exec : testjson.Execution.t) (p : os.Process).
Implicit Types (jtc : JUnitTestCase.t) (cases : list JUnitTestCase.t).

Lemma mungePackageName_panics_helper name strip prefix :
  mungePackageName name strip prefix = None → strip < 0.
Proof.
  intros Hnone. apply (stripPathElements_None name). unfold mungePackageName in Hnone.
  by destruct (stripPathElements name strip).
Qed.

Lemma mungePackageName_negative name strip prefix :
  strip < 0 → mungePackageName name strip prefix = None.
Proof.
  intros Hneg. unfold mungePackageName.
  by rewrite (proj2 (stripPathElements_None name strip) Hneg).
Qed.

Lemma newJUnitTestCase_negative tc strip prefix :
  strip < 0 → newJUnitTestCase tc strip prefix = None.
Proof.
  intros Hneg. unfold newJUnitTestCase. by rewrite mungePackageName_negative.
Qed.

Lemma mapM_all_None {A B} (f : A → option B) (l : list A) :
  (∀ x, f x = None) → l ≠ [] → mapM f l = None.
Proof.
  intros Hf Hl. destruct l as [|x l]; [done|].
  apply mapM_None, Exists_cons_hd, Hf.
Qed.

(** [packageTestCases] panics exactly when the strip count is negative and
    there is a case record to build. *)
Lemma packageTestCases_None pkg strip prefix :
  packageTestCases pkg strip prefix = None ↔ strip < 0 ∧ source_cases pkg ≠ [].
Proof.
  split.
  - intros Hnone. destruct (decide (0 ≤ strip)) as [Hpos|Hneg].
    { destruct (packageTestCases_is_Some pkg strip prefix Hpos) as [? ?]. congruence. }
    split; [lia|]. intros Hnil. unfold source_cases in Hnil.
    apply app_eq_nil in Hnil as [Hm [Hf [Hs Hp]%app_eq_nil]%app_eq_nil].
    rewrite packageTestCases_groups, Hm, Hf, Hs, Hp in Hnone. done.
  - intros [Hneg Hne]. rewrite packageTestCases_groups.
    assert (∀ tc, main_case pkg strip prefix tc = None) as Hmain
      by (intros; unfold main_case; by rewrite newJUnitTestCase_negative).
    assert (∀ tc, failed_case pkg strip prefix tc = None) as Hfailed
      by (intros; unfold failed_case; by rewrite newJUnitTestCase_negative).
    assert (∀ tc, skipped_case pkg strip prefix tc = None) as Hskipped
      by (intros; unfold skipped_case; by rewrite newJUnitTestCase_negative).
    assert (∀ tc, passed_case strip prefix tc = None) as Hpassed
      by (intros; unfold passed_case; by rewrite newJUnitTestCase_negative).
    unfold source_cases in Hne.
    destruct (decide (main_cases pkg = [])) as [Hm|Hm];
      [rewrite Hm in *|by rewrite (mapM_all_None (main_case _ _ _))].
    destruct (decide (testjson.Package.Failed pkg = [])) as [Hf|Hf];
      [rewrite Hf in *|by rewrite (mapM_all_None (failed_case _ _ _))].
    destruct (decide (testjson.Package.Skipped pkg = [])) as [Hs|Hs];
      [rewrite Hs in *|by rewrite (mapM_all_None (skipped_case _ _ _))].
    by rewrite (mapM_all_None (passed_case _ _)).
Qed.

Lemma generate_suite_None p version exec strip prefix pkgname :
  generate_suite p version exec strip prefix pkgname = None ↔
  strip < 0 ∧
  (os.Getenv p "GOTESTSUM_SUITE" = "" ∨
   source_cases (testjson.Execution.Package exec pkgname) ≠ []).
Proof.
  unfold generate_suite. cbv zeta.
  destruct (packageTestCases (testjson.Execution.Package exec pkgname) strip prefix)
    as [cases|] eqn:Hcases.
  - assert (¬ (strip < 0 ∧ source_cases (testjson.Execution.Package exec pkgname) ≠ []))
      as Hnot by (rewrite <- (packageTestCases_None _ _ prefix); congruence).
    destruct (decide (os.Getenv p "GOTESTSUM_SUITE" ≠ "")) as [Hset|Hunset%dec_stable].
    + simpl. split; [done|]. intros [? [?|?]]; [done|]. by destruct Hnot.
    + destruct (mungePackageName pkgname strip prefix) as [name|] eqn:Hname; simpl.
      * split; [done|]. intros [Hneg _].
        by rewrite mungePackageName_negative in Hname.
      * apply mungePackageName_panics_helper in Hname. split; [|done]. eauto.
  - apply packageTestCases_None in Hcases as [Hneg Hne].
    split; [eauto|]. intros _.
    destruct (decide (os.Getenv p "GOTESTSUM_SUITE" ≠ "")); simpl; [done|].
    by rewrite mungePackageName_negative.
Qed.

(** X6. [generate] panics exactly when the strip count is negative and the
    normalizer has to run for some package: the package has a case record
    to build, or its suite name is not overridden by [GOTESTSUM_SUITE]. In
    particular it returns, for every strip count, on an execution without
    packages. *)
Theorem generate_panics_iff p exec strip prefix :
  generate p exec strip prefix = None ↔
  strip < 0 ∧
  ∃ pkgname,
    pkgname ∈ testjson.Execution.Packages exec ∧
    (os.Getenv p "GOTESTSUM_SUITE" = "" ∨
     source_cases (testjson.Execution.Package exec pkgname) ≠ []).
Proof.
  unfold generate. cbv zeta.
  destruct (mapM _ _) as [suites|] eqn:Hsuites; simpl.
  - split; [done|]. intros (Hneg & pkgname & Hin & Hrun).
    apply mapM_Some, Forall2_Forall_l with (Q := λ pkgname,
      is_Some (generate_suite p (goVersion p) exec strip prefix pkgname)) in Hsuites.
    + rewrite Forall_forall in Hsuites. destruct (Hsuites pkgname Hin) as [suite Hsuite].
      assert (generate_suite p (goVersion p) exec strip prefix pkgname = None) as Hnone
        by by apply generate_suite_None.
      congruence.
    + apply Forall_true. intros suite pkgname' Hsome. by eexists.
  - split; [|done]. intros _.
    apply mapM_None, Exists_exists in Hsuites as (pkgname & Hin & Hnone).
    apply generate_suite_None in Hnone as [Hneg Hrun]. eauto.
Qed.

(** X7. A case record never carries both a skip and a failure
    annotation, and every failure annotation has the message ["Failed"] and
    an empty type. *)
Theorem packageTestCases_annotations pkg strip prefix cases :
  packageTestCases pkg strip prefix = Some cases →
  Forall (λ jtc,
            (JUnitTestCase.SkipMessage jtc = None ∨ JUnitTestCase.Failure jtc = None) ∧
            ∀ failure, JUnitTestCase.Failure jtc = Some failure →
                       JUnitFailure.Message failure = "Failed" ∧
                       JUnitFailure.Type_ failure = "")
    cases.
Proof.
  intros (main & failed & skipped & passed & -> & Hm & Hf & Hs & Hp)
    %packageTestCases_in_order.
  repeat apply Forall_app_2.
  - eapply Forall2_Forall_r; [done|]. apply Forall_true.
    intros tc jtc (_ & _ & -> & ->). split; [by left|]. by intros ? [= <-].
  - eapply Forall2_Forall_r; [done|]. apply Forall_true.
    intros tc jtc (_ & -> & ->). split; [by left|]. by intros ? [= <-].
  - eapply Forall2_Forall_r; [done|]. apply Forall_true.
    intros tc jtc (_ & _ & ->). split; [by right|]. by intros ? [=].
  - eapply Forall2_Forall_r; [done|]. apply Forall_true.
    intros tc jtc (_ & _ & ->). split; [by right|]. by intros ? [=].
Qed.

Lemma packageTestCases_annotations_witness :
  ∃ cases,
    packageTestCases good 1 "ci" = Some cases ∧
    map (λ jtc, (bool_decide (is_Some (JUnitTestCase.SkipMessage jtc)),
                 bool_decide (is_Some (JUnitTestCase.Failure jtc)))) cases
    = [(false, true); (true, false); (false, false); (false, false)].
Proof.
  destruct (packageTestCases_is_Some good 1 "ci") as [cases Hcases]; [lia|].
  pose proof (packageTestCases_annotations good 1 "ci" cases Hcases) as Hall.
  exists cases. split; [done|].
  vm_compute in Hcases. by injection Hcases as <-.
Defined.

(** Stripping every segment of the name leaves the normalized prefix. *)
Lemma mungePackageName_all_stripped name strip prefix :
  len (strings.Split name "/") ≤ strip →
  mungePackageName name strip prefix = mungePackageName prefix 0 "".
Proof.
  intros Hstrip. rewrite mungePackageName_no_strip_Clean.
  rewrite (mungePackageName_stripped _ _ _ "") by by apply stripPathElements_all.
  rewrite path_Join_pair.
  case_decide; [done|]. by rewrite Clean_trailing_slash.
Qed.

(** The empty package name is normalized to the normalized prefix, for
    every strip count that is not negative. *)
Lemma mungePackageName_empty_name strip prefix :
  0 ≤ strip → mungePackageName "" strip prefix = mungePackageName prefix 0 "".
Proof.
  intros Hstrip. destruct (decide (strip = 0)) as [->|Hnz].
  - rewrite mungePackageName_no_strip_Clean, mungePackageName_strip0, path_Join_pair.
    case_decide; [done|]. by rewrite Clean_trailing_slash.
  - apply mungePackageName_all_stripped. change (len (strings.Split "" "/")) with 1. lia.
Qed.

(** X8. When the driver-failure flag of a package is set, the first case
    record is the one named [TestMain]; it carries the output of the whole
    package as its failure content, and its class name is the normalized
    prefix alone, whatever the strip count: the empty string without a
    prefix. *)
Theorem packageTestCases_TestMain pkg strip prefix cases :
  testjson.Package.TestMainFailed pkg = true →
  packageTestCases pkg strip prefix = Some cases →
  ∃ jtc rest,
    cases = jtc :: rest ∧
    JUnitTestCase.Name jtc = "TestMain" ∧
    mungePackageName prefix 0 "" = Some (JUnitTestCase.Classname jtc) ∧
    (prefix = "" → JUnitTestCase.Classname jtc = "") ∧
    JUnitTestCase.Failure jtc =
      Some (JUnitFailure.mk "Failed" "" (testjson.Package.Output pkg "")).
Proof.
  intros Hflag Hcases.
  assert (0 ≤ strip) as Hstrip.
  { destruct (decide (0 ≤ strip)); [done|].
    assert (packageTestCases pkg strip prefix = None); [|congruence].
    apply packageTestCases_None. split; [lia|].
    unfold source_cases, main_cases. by rewrite Hflag. }
  apply packageTestCases_Some in Hcases
    as (main & failed & skipped & passed & -> & Hm & _).
  apply main_cases_Forall2 in Hm. unfold main_cases in Hm. rewrite Hflag in Hm.
  apply Forall2_cons_inv_l in Hm as (jtc & main' & [Hrec Hclass] & Hnil & ->).
  apply Forall2_nil_inv_l in Hnil as ->.
  destruct Hrec as (_ & [Hname _] & _ & Hfailure).
  change (testjson.TestCase.Package TestMain_case) with "" in Hclass.
  rewrite mungePackageName_empty_name in Hclass by done.
  exists jtc, (failed ++ skipped ++ passed). split_and!; try done.
  intros ->. vm_compute in Hclass. by injection Hclass.
Qed.

Lemma packageTestCases_TestMain_witness :
  ∃ jtc,
    packageTestCases badmain 3 "a/b/c" = Some [jtc] ∧
    JUnitTestCase.Name jtc = "TestMain" ∧
    JUnitTestCase.Classname jtc = "a.b.c".
Proof.
  destruct (packageTestCases_is_Some badmain 3 "a/b/c") as [cases Hcases]; [lia|].
  destruct (packageTestCases_TestMain badmain 3 "a/b/c" cases eq_refl Hcases)
    as (jtc & rest & -> & Hname & Hclass & _).
  vm_compute in Hcases. injection Hcases as <- <-.
  eexists. by split_and!.
Defined.



(** X10. Without an override of the suite name, the class name of every
    case record whose test case names the package of the suite is the name
    of the suite. *)
Theorem generate_Classname_is_Name p exec strip prefix suites :
  os.Getenv p "GOTESTSUM_SUITE" = "" →
  generate p exec strip prefix = Some suites →
  Forall2 (λ pkgname suite,
             Forall2 (λ tc jtc,
                        testjson.TestCase.Package tc = pkgname →
                        JUnitTestCase.Classname jtc = JUnitTestSuite.Name suite)
               (source_cases (testjson.Execution.Package exec pkgname))
               (JUnitTestSuite.TestCases suite))
    (testjson.Execution.Packages exec) (JUnitTestSuites.Suites suites).
Proof.
  intros Hunset. apply generate_Forall2. intros pkgname suite Hsuite.
  apply generate_suite_Some in Hsuite as (Hname & _ & _ & _ & _ & Hcases).
  rewrite decide_False in Hname by (by intros []).
  eapply Forall2_impl; [by apply packageTestCases_Classname|].
  intros tc jtc Hclass Heq. cbv beta in Hclass. rewrite Heq in Hclass. congruence.
Qed.

Lemma generate_Classname_is_Name_witness :
  ∃ suites,
    generate bare_process example_exec 1 "ci" = Some suites ∧
    map (λ suite,
           (JUnitTestSuite.Name suite,
            map JUnitTestCase.Classname (JUnitTestSuite.TestCases suite)))
      (JUnitTestSuites.Suites suites)
    = [("ci.mod.badmain", ["ci"]);
       ("ci.mod.good", ["ci.mod.good"; "ci.mod.good"; "ci.mod.good"; "ci.mod.good"])].
Proof.
  destruct (generate_is_Some bare_process example_exec 1 "ci") as [suites Hsuites];
    [lia|].
  pose proof (generate_Classname_is_Name bare_process example_exec 1 "ci" suites
                eq_refl Hsuites) as Hall.
  exists suites. split; [done|].
  vm_compute in Hsuites. by injection Hsuites as <-.
Defined.

End suite_more.

(** ** The writer: the calls made on the sink *)

Section writer_more.

Variable MarshalIndent : xml.MarshalIndent_t.

(** X11. On a recording sink, [write] makes no call, or one call with the
    XML declaration, or two calls with the declaration and then the encoded
    document, in this order: the document is never written without the
    declaration before it. It returns no error only after both calls, and
    stops after the declaration only when writing it failed. *)
Theorem write_recorded_calls (w w' : recorder.t) (suites : JUnitTestSuites.t)
    (err : option error) :
  write MarshalIndent w suites = (w', err) →
  (recorder.calls w' = recorder.calls w ∨
   recorder.calls w' = recorder.calls w ++ [xml.Header] ∨
   ∃ doc, MarshalIndent suites "" (strings.byte_string [9]) = inr doc ∧
          recorder.calls w' = recorder.calls w ++ [xml.Header; doc]) ∧
  (err = None →
   ∃ doc, MarshalIndent suites "" (strings.byte_string [9]) = inr doc ∧
          recorder.calls w' = recorder.calls w ++ [xml.Header; doc]) ∧
  (recorder.calls w' = recorder.calls w ++ [xml.Header] → is_Some err).
Proof.
  unfold write.
  destruct (MarshalIndent suites "" (strings.byte_string [9])) as [e|doc].
  { intros [= <- <-]. split_and!; [by left|done|].
    intros Heq. apply (f_equal length) in Heq.
    rewrite length_app in Heq. simpl in Heq. lia. }
  unfold io.Writer_Write, Recorder_Writer.
  destruct (recorder.script w) as [|[e|] rest]; simpl.
  - intros [= <- <-]. simpl. rewrite <- app_assoc.
    split_and!; [right; right; by eexists|by eexists|].
    simpl. intros Heq%app_inv_head. done.
  - intros [= <- <-]. simpl. split_and!; [right; by left|done|by eexists].
  - destruct rest as [|[e|] rest]; simpl; intros [= <- <-]; simpl;
      rewrite <- app_assoc; simpl.
    + split_and!; [right; right; by eexists|by eexists|].
      intros Heq%app_inv_head. done.
    + split_and!; [right; right; by eexists|done|by eexists].
    + split_and!; [right; right; by eexists|by eexists|].
      intros Heq%app_inv_head. done.
Qed.

End writer_more.

Lemma write_recorded_calls_witness :
  write fixed_MarshalIndent
    (recorder.mk [] [None; Some (errorString "disk full")]) (JUnitTestSuites.mk [])
  = (recorder.mk [xml.Header; "<testsuites></testsuites>"] [],
     Some (errorString "disk full")) ∧
  write fixed_MarshalIndent
    (recorder.mk [] [Some (errorString "closed pipe")]) (JUnitTestSuites.mk [])
  = (recorder.mk [xml.Header] [], Some (errorString "closed pipe")).
Proof.
  split.
  - pose proof (write_recorded_calls fixed_MarshalIndent
                  (recorder.mk [] [None; Some (errorString "disk full")])
                  _ (JUnitTestSuites.mk []) _ eq_refl) as Hcalls.
    reflexivity.
  - pose proof (write_recorded_calls fixed_MarshalIndent
                  (recorder.mk [] [Some (errorString "closed pipe")])
                  _ (JUnitTestSuites.mk []) _ eq_refl) as Hcalls.
    reflexivity.
Defined.

(** ** The version resolver: the output of the toolchain *)

Section version_more.

Lemma string_app_assoc (s t u : string) : (s +:+ t) +:+ u = s +:+ t +:+ u.
Proof.
  induction s as [|c s IH]; [done|].
  change (String c ((s +:+ t) +:+ u) = String c (s +:+ t +:+ u)). by rewrite IH.
Qed.

Lemma string_length_app (s t : string) :
  String.length (s +:+ t) = (String.length s + String.length t)%nat.
Proof.
  induction s as [|c s IH]; [done|].
  change (S (String.length (s +:+ t)) = S (String.length s + String.length t)).
  by rewrite IH.
Qed.

Lemma rev_app_append s acc : String.rev_app s acc = String.rev s +:+ acc.
Proof.
  unfold String.rev. revert acc. induction s as [|c s IH]; intros acc; [done|].
  simpl. rewrite (IH (String c acc)), (IH (String c "")).
  by rewrite string_app_assoc.
Qed.

Lemma string_app_nil_r (s : string) : s +:+ "" = s.
Proof.
  induction s as [|c s IH]; [done|].
  change (String c (s +:+ "") = String c s). by rewrite IH.
Qed.

Lemma rev_append s t : String.rev (s +:+ t) = String.rev t +:+ String.rev s.
Proof.
  induction s as [|c s IH].
  - change (String.rev t = String.rev t +:+ ""). by rewrite string_app_nil_r.
  - change (String.rev (String c s +:+ t)) with (String.rev_app (s +:+ t) (String c "")).
    change (String.rev (String c s)) with (String.rev_app s (String c "")).
    by rewrite !rev_app_append, IH, string_app_assoc.
Qed.

Lemma rev_involutive s : String.rev (String.rev s) = s.
Proof.
  induction s as [|c s IH]; [done|].
  change (String.rev (String c s)) with (String.rev_app s (String c "")).
  by rewrite rev_app_append, rev_append, IH.
Qed.

Lemma rev_length s : String.length (String.rev s) = String.length s.
Proof.
  induction s as [|c s IH]; [done|].
  change (String.rev (String c s)) with (String.rev_app s (String c "")).
  rewrite rev_app_append, string_length_app, IH.
  change (String.length (String c "")) with 1%nat.
  change (String.length (String c s)) with (S (String.length s)). lia.
Qed.

Lemma cut_prefix_Some s prefix rest :
  strings.cut_prefix s prefix = Some rest ↔ s = prefix +:+ rest.
Proof.
  revert s. induction prefix as [|c prefix IH]; intros [|c' s]; simpl.
  - split; [by intros [= <-]|by intros ->].
  - split; [by intros [= <-]|by intros ->].
  - done.
  - destruct (Ascii.eqb_spec c' c) as [->|Hne].
    + rewrite IH. split; [by intros ->|by intros [= ->]].
    + split; [done|]. by intros [= -> _].
Qed.

(** No member of [runes] starts a string on which [cut_rune] finds none. *)
Lemma cut_rune_None runes s :
  strings.cut_rune runes s = None →
  ∀ r rest, r ∈ runes → s ≠ r +:+ rest.
Proof.
  unfold strings.cut_rune. intros Hnone r rest Hr Hs.
  destruct (list_find _ runes) as [[i r']|] eqn:Hfind; simpl in Hnone.
  - apply list_find_Some in Hfind as (_ & [? Hcut] & _). congruence.
  - rewrite list_find_None, Forall_forall in Hfind.
    apply (Hfind r Hr). exists rest. by apply cut_prefix_Some.
Qed.

Lemma cut_rune_shorter runes s rest :
  Forall (λ r, r ≠ "") runes →
  strings.cut_rune runes s = Some rest →
  (String.length rest < String.length s)%nat.
Proof.
  unfold strings.cut_rune. intros Hrunes Hcut.
  destruct (list_find _ runes) as [[i r]|] eqn:Hfind; [|done]. simpl in Hcut.
  apply list_find_Some in Hfind as (Hi & _ & _).
  apply cut_prefix_Some in Hcut as ->.
  rewrite Forall_forall in Hrunes.
  assert (r ≠ "") as Hr by (eapply Hrunes, list_elem_of_lookup_2, Hi).
  rewrite string_length_app. destruct r; [done|]. simpl. lia.
Qed.

(** With fuel enough, [trim_left] stops at a string that none of the runes
    starts. *)
Lemma trim_left_stable runes fuel s :
  Forall (λ r, r ≠ "") runes →
  (String.length s ≤ fuel)%nat →
  strings.cut_rune runes (strings.trim_left fuel runes s) = None.
Proof.
  intros Hrunes. revert s. induction fuel as [|fuel IH]; intros s Hfuel; simpl.
  - destruct s; [|simpl in Hfuel; lia].
    destruct (strings.cut_rune runes "") as [rest|] eqn:Hcut; [|done].
    apply cut_rune_shorter in Hcut; [simpl in Hcut; lia|done].
  - destruct (strings.cut_rune runes s) as [rest|] eqn:Hcut; [|done].
    apply IH. apply cut_rune_shorter in Hcut; [lia|done].
Qed.

Lemma space_runes_nonempty :
  Forall (λ r, r ≠ "") (map String.rev strings.space_runes).
Proof. vm_compute. repeat constructor; discriminate. Qed.

(** A string whose reverse starts with no reversed white-space rune ends
    with no white-space rune. *)
Lemma no_trailing_space s :
  strings.cut_rune (map String.rev strings.space_runes) (String.rev s) = None →
  ∀ w u, w ∈ strings.space_runes → s ≠ u +:+ w.
Proof.
  intros Hcut w u Hw ->.
  apply (cut_rune_None _ _ Hcut (String.rev w) (String.rev u)).
  - by apply list_elem_of_fmap_2.
  - apply rev_append.
Qed.

(** [strings.TrimSpace] leaves no white-space rune at the end. *)
Lemma TrimSpace_no_trailing_space s w u :
  w ∈ strings.space_runes → strings.TrimSpace s ≠ u +:+ w.
Proof.
  apply no_trailing_space. unfold strings.TrimSpace. cbv zeta.
  rewrite rev_involutive. apply trim_left_stable; [apply space_runes_nonempty|].
  by rewrite rev_length.
Qed.

(** X12. When [GOVERSION] is unset, the version that [goVersion] returns,
    taken from the output of [go version] or the fallback ["unknown"],
    never ends with a white-space rune: the newline that ends the output
    of the command does not reach the report. *)
Theorem goVersion_no_trailing_space (p : os.Process) (w u : string) :
  os.LookupEnv p "GOVERSION" = None →
  w ∈ strings.space_runes →
  goVersion p ≠ u +:+ w.
Proof.
  intros Hunset Hw. unfold goVersion, goVersion_run. rewrite Hunset.
  destruct (os.go_version_Output p) as [err|out]; simpl.
  - by apply no_trailing_space.
  - unfold strings.TrimPrefix.
    destruct (strings.cut_prefix (strings.TrimSpace out) "go version ")
      as [version|] eqn:Hcut; simpl.
    + apply cut_prefix_Some in Hcut. intros ->.
      rewrite <- string_app_assoc in Hcut.
      by apply TrimSpace_no_trailing_space in Hcut.
    + by apply TrimSpace_no_trailing_space.
Qed.

Lemma goVersion_no_trailing_space_witness :
  goVersion (os.mk ∅ (inr ("go version go1.12 linux/amd64" +:+ strings.byte_string [10])))
  = "go1.12 linux/amd64" ∧
  "go1.12 linux/amd64" ≠ "go1.12 linux/amd64" +:+ strings.byte_string [10].
Proof.
  split; [by vm_compute|].
  assert (goVersion
            (os.mk ∅ (inr ("go version go1.12 linux/amd64" +:+ strings.byte_string [10])))
          = "go1.12 linux/amd64") as <- by by vm_compute.
  apply goVersion_no_trailing_space; [done|].
  vm_compute. apply list_elem_of_further, list_elem_of_here.
Defined.

End version_more.
